(** * Express-Jobly: the data-access layer (helpers/sql.js, models/company.js,
      models/job.js, models/user.js) as a shallow embedding.

    The JavaScript of the repository is embedded as follows.

    - A JavaScript value is a [value]; number values are the integers (the
      criteria, ids, salaries and employee counts of the data model), strings
      are sequences of code units below 256, a function is its source text.
      What a string reads as when [>] compares it with a number is a
      [number]: any double, as its exact value.
    - An object used as a record or as a map is an [obj]: the list of its own
      enumerable properties in the order [Object.keys] enumerates them
      ([Object_of] builds it from the properties in the order they were
      defined).  Every object is a plain object: a property it does not own
      is read from [Object.prototype].  The reads with a literal name
      ([get_prop]) ask for names [Object.prototype] does not define; the one
      read with a computed name, in [sqlForPartialUpdate], is [read].
    - An [async] function is a [prog]: a tree whose nodes are the calls to the
      collaborators ([db.query], [bcrypt.hash], [bcrypt.compare]) and whose
      leaves are the returned value or the thrown error.  [run] executes a
      [prog] against a [world] that answers the calls. *)

From Stdlib Require Import String Ascii List ZArith Lia Bool DecimalString Decimal.
Import ListNotations.
Open Scope string_scope.
Set Warnings "-register-all".

(** ** JavaScript values *)

Module JS.

Inductive value : Type :=
| VUndef
| VNull
| VBool (b : bool)
| VNum (n : Z)
| VStr (s : string)
| VArr (elems : list value)
| VObj (props : list (string * value))
| VFun (source : string).

Definition obj : Type := list (string * value).

(** The double quote and the line feed, which the SQL texts of the source
    contain. *)
Definition dq : string := String (ascii_of_nat 34) EmptyString.
Definition nl : string := String (ascii_of_nat 10) EmptyString.

(** [ToBoolean]: what [if (v)], [!v] and [v || w] test. *)
Definition truthy (v : value) : bool :=
  match v with
  | VUndef | VNull => false
  | VBool b => b
  | VNum n => negb (n =? 0)%Z
  | VStr s => negb (s =? "")
  | VArr _ | VObj _ | VFun _ => true
  end.

(** [a || b]. *)
Definition or_else (a b : value) : value := if truthy a then a else b.

(** [Array.prototype.join] on strings. *)
Definition join (sep : string) (l : list string) : string := String.concat sep l.

(** [ToString], as a template literal applies it to an interpolated value
    (an integer prints in decimal, as JavaScript prints it below 10^21). *)
Fixpoint ToString (v : value) : string :=
  match v with
  | VUndef => "undefined"
  | VNull => "null"
  | VBool true => "true"
  | VBool false => "false"
  | VNum n => NilEmpty.string_of_int (Z.to_int n)
  | VStr s => s
  | VArr l =>
      join "," (map (fun x => match x with
                              | VUndef | VNull => ""
                              | _ => ToString x
                              end) l)
  | VObj _ => "[object Object]"
  | VFun source => source
  end.

(** ** Numbers as [>] compares them

    [ToNumber] of a string is a double.  A [number] is NaN, an infinity, or
    the exact value [num / den] of a finite double. *)

Inductive number : Type :=
| NaN
| Infinity (negative : bool)
| Finite (num : Z) (den : positive).

(** Whether [n / d >= 2 ^ e], for [n] and [d] positive. *)
Definition scaled_ge (n d e : Z) : bool :=
  if (0 <=? e)%Z then (d * 2 ^ e <=? n)%Z else (d <=? n * 2 ^ (- e))%Z.

(** The integer part of the binary logarithm of [n / d]. *)
Definition floor_log2 (n d : Z) : Z :=
  let e0 := (Z.log2 n - Z.log2 d)%Z in
  if scaled_ge n d e0 then e0 else (e0 - 1)%Z.

(** The double nearest to [n / d] (ties to the even significand), with the
    sign [negative]: 53 bits of significand, exponents down to that of the
    subnormal doubles, an infinity from [2 ^ 1024] on. *)
Definition round_double (negative : bool) (n d : Z) : number :=
  if (n =? 0)%Z then Finite 0 1
  else
    let e := floor_log2 n d in
    let k := Z.max (e - 52) (-1074) in
    let N := if (0 <=? k)%Z then n else (n * 2 ^ (- k))%Z in
    let D := if (0 <=? k)%Z then (d * 2 ^ k)%Z else d in
    let q := (N / D)%Z in
    let r := (N mod D)%Z in
    let q' := if (D <? 2 * r)%Z || ((2 * r =? D)%Z && Z.odd q) then (q + 1)%Z else q in
    let sq := if negative then (- q')%Z else q' in
    if (1024 - k <? 0)%Z || (2 ^ (1024 - k) <=? q')%Z then Infinity negative
    else if (0 <=? k)%Z then Finite (sq * 2 ^ k) 1
         else Finite sq (Z.to_pos (2 ^ (- k))).

(** The value of a digit, a letter counting from 10. *)
Definition digit_value (c : ascii) : option Z :=
  let n := nat_of_ascii c in
  if ((48 <=? n) && (n <=? 57))%nat then Some (Z.of_nat (n - 48))
  else if ((97 <=? n) && (n <=? 102))%nat then Some (Z.of_nat (n - 87))
  else if ((65 <=? n) && (n <=? 70))%nat then Some (Z.of_nat (n - 55))
  else None.

(** The longest prefix of digits in [base]: its value on top of [acc], the
    number of digits read, and what follows. *)
Fixpoint read_digits (base : Z) (s : string) (acc : Z) (count : nat)
  : Z * nat * string :=
  match s with
  | EmptyString => (acc, count, s)
  | String c r =>
      match digit_value c with
      | Some v => if (v <? base)%Z then read_digits base r (acc * base + v)%Z (S count)
                  else (acc, count, s)
      | None => (acc, count, s)
      end
  end.

(** The white space and line terminators below 256: TAB, LF, VT, FF, CR,
    SP and NBSP. *)
Definition is_white_space (c : ascii) : bool :=
  let n := nat_of_ascii c in
  ((9 <=? n) && (n <=? 13) || (n =? 32) || (n =? 160))%nat.

Fixpoint trim_start (s : string) : string :=
  match s with
  | String c r => if is_white_space c then trim_start r else s
  | EmptyString => s
  end.

Fixpoint trim_end (s : string) : string :=
  match s with
  | EmptyString => EmptyString
  | String c r =>
      match trim_end r with
      | EmptyString => if is_white_space c then EmptyString else String c EmptyString
      | r' => String c r'
      end
  end.

(** The double of [m * 10 ^ ex], for [m >= 0].  Beyond [10 ^ 400] it is an
    infinity and below [10 ^ -400] it is 0, which spares the power. *)
Definition decimal_value (negative : bool) (m ex : Z) : number :=
  if (m =? 0)%Z then Finite 0 1
  else if (400 <? ex)%Z then Infinity negative
  else if (ex + Z.log2 m + 1 <? -400)%Z then Finite 0 1
  else if (0 <=? ex)%Z then round_double negative (m * 10 ^ ex) 1
  else round_double negative m (10 ^ (- ex)).

(** An optional exponent part, to the end of the string. *)
Definition exponent_part (s : string) : option Z :=
  match s with
  | EmptyString => Some 0%Z
  | String c r =>
      if (c =? "e")%char || (c =? "E")%char then
        let '(sign, r') := match r with
                           | String "+" t => (1%Z, t)
                           | String "-" t => ((-1)%Z, t)
                           | _ => (1%Z, r)
                           end in
        match read_digits 10 r' 0 0 with
        | (ex, S _, EmptyString) => Some (sign * ex)%Z
        | _ => None
        end
      else None
  end.

(** [Infinity], or digits with an optional fraction and exponent. *)
Definition unsigned_decimal (negative : bool) (s : string) : number :=
  if s =? "Infinity" then Infinity negative
  else
    let '(m1, c1, r1) := read_digits 10 s 0 0 in
    let '(m2, c2, r2) := match r1 with
                         | String "." r => read_digits 10 r m1 0
                         | _ => (m1, O, r1)
                         end in
    if (c1 + c2 =? 0)%nat then NaN
    else match exponent_part r2 with
         | Some ex => decimal_value negative m2 (ex - Z.of_nat c2)
         | None => NaN
         end.

(** The digits of a hexadecimal, octal or binary literal. *)
Definition radix_literal (base : Z) (s : string) : number :=
  match read_digits base s 0 0 with
  | (v, S _, EmptyString) => round_double false v 1
  | _ => NaN
  end.

(** [StringToNumber]: the string without the white space around it is
    empty (0), a literal with a radix prefix (no sign), or a signed decimal
    literal; anything else is NaN. *)
Definition StringToNumber (s : string) : number :=
  match trim_end (trim_start s) with
  | EmptyString => Finite 0 1
  | String "0" (String "x" r) | String "0" (String "X" r) => radix_literal 16 r
  | String "0" (String "o" r) | String "0" (String "O" r) => radix_literal 8 r
  | String "0" (String "b" r) | String "0" (String "B" r) => radix_literal 2 r
  | String "+" r => unsigned_decimal false r
  | String "-" r => unsigned_decimal true r
  | t => unsigned_decimal false t
  end.

(** [x < y] on numbers; false when either is NaN. *)
Definition number_lt (x y : number) : bool :=
  match x, y with
  | NaN, _ | _, NaN => false
  | Infinity true, Infinity true => false
  | Infinity true, _ => true
  | _, Infinity true => false
  | Infinity false, _ => false
  | _, Infinity false => true
  | Finite a b, Finite c d => (a * Z.pos d <? c * Z.pos b)%Z
  end.

(** [ToPrimitive] gives a string for a string, an array, an object and a
    function. *)
Definition is_stringish (v : value) : bool :=
  match v with
  | VStr _ | VArr _ | VObj _ | VFun _ => true
  | _ => false
  end.

Definition ToNumber (v : value) : number :=
  match v with
  | VUndef => NaN
  | VNull => Finite 0 1
  | VBool b => Finite (if b then 1 else 0) 1
  | VNum n => Finite n 1
  | VStr s => StringToNumber s
  | VArr _ | VObj _ | VFun _ => StringToNumber (ToString v)
  end.

(** [a > b]: two strings compare code unit by code unit, anything else
    compares as numbers, and a comparison with NaN is false. *)
Definition gt (a b : value) : bool :=
  if is_stringish a && is_stringish b
  then String.ltb (ToString b) (ToString a)
  else number_lt (ToNumber b) (ToNumber a).

(** [a === s] for a string literal [s]. *)
Definition strict_eq_str (a : value) (s : string) : bool :=
  match a with
  | VStr t => t =? s
  | _ => false
  end.

(** Own properties: [o[k]], [o[k] = v], [delete o[k]], [Object.keys],
    [Object.values]. *)
Fixpoint lookup (o : obj) (k : string) : option value :=
  match o with
  | [] => None
  | (k', v) :: r => if k' =? k then Some v else lookup r k
  end.

Definition get_prop (o : obj) (k : string) : value :=
  match lookup o k with
  | Some v => v
  | None => VUndef
  end.

Fixpoint set_prop (o : obj) (k : string) (v : value) : obj :=
  match o with
  | [] => [(k, v)]
  | (k', v') :: r => if k' =? k then (k', v) :: r else (k', v') :: set_prop r k v
  end.

Definition delete_prop (o : obj) (k : string) : obj :=
  filter (fun kv => negb (fst kv =? k)) o.

(** [Object.prototype]: its properties, none of them enumerable.  The
    functions read as their source text; [__proto__] reads as
    [Object.prototype] itself, an object without enumerable properties. *)
Definition Object_prototype : obj :=
  [("constructor", VFun "function Object() { [native code] }");
   ("__defineGetter__", VFun "function __defineGetter__() { [native code] }");
   ("__defineSetter__", VFun "function __defineSetter__() { [native code] }");
   ("hasOwnProperty", VFun "function hasOwnProperty() { [native code] }");
   ("__lookupGetter__", VFun "function __lookupGetter__() { [native code] }");
   ("__lookupSetter__", VFun "function __lookupSetter__() { [native code] }");
   ("isPrototypeOf", VFun "function isPrototypeOf() { [native code] }");
   ("propertyIsEnumerable", VFun "function propertyIsEnumerable() { [native code] }");
   ("toString", VFun "function toString() { [native code] }");
   ("valueOf", VFun "function valueOf() { [native code] }");
   ("__proto__", VObj []);
   ("toLocaleString", VFun "function toLocaleString() { [native code] }")].

Definition inherited (k : string) : option value := lookup Object_prototype k.

(** [o[k]] for a computed [k]: the own property, or else the one of
    [Object.prototype], or else [undefined]. *)
Definition read (o : obj) (k : string) : value :=
  match lookup o k with
  | Some v => v
  | None => match inherited k with
            | Some v => v
            | None => VUndef
            end
  end.

(** An array index: ["0"], or digits that do not start with 0, up to
    [2 ^ 32 - 2]. *)
Definition index_of (k : string) : option Z :=
  match k with
  | EmptyString => None
  | String "0" EmptyString => Some 0%Z
  | String "0" _ => None
  | _ => match read_digits 10 k 0 0 with
         | (i, _, EmptyString) => if (i <=? 4294967294)%Z then Some i else None
         | _ => None
         end
  end.

(** A new property with the array index [i], in an object whose properties
    are in the order of enumeration: after the smaller indices. *)
Fixpoint insert_index (o : obj) (k : string) (i : Z) (v : value) : obj :=
  match o with
  | [] => [(k, v)]
  | (k', v') :: r =>
      match index_of k' with
      | Some j => if (i <? j)%Z then (k, v) :: o else (k', v') :: insert_index r k i v
      | None => (k, v) :: o
      end
  end.

(** Defining the own property [k] (as [JSON.parse] does, and an object
    literal for every name but [__proto__]): a property the object has keeps
    its place, a new array index goes among the indices in ascending order,
    any other new name goes last. *)
Definition define_prop (o : obj) (k : string) (v : value) : obj :=
  match lookup o k with
  | Some _ => set_prop o k v
  | None => match index_of k with
            | Some i => insert_index o k i v
            | None => (o ++ [(k, v)])%list
            end
  end.

(** The object with the properties [entries], defined in that order. *)
Definition Object_of (entries : list (string * value)) : obj :=
  fold_left (fun o kv => define_prop o (fst kv) (snd kv)) entries [].

Definition Object_keys (o : obj) : list string := map fst o.
Definition Object_values (o : obj) : list value := map snd o.

(** [l.map((x, idx) => f x idx)]. *)
Fixpoint map_from {A B : Type} (f : A -> nat -> B) (i : nat) (l : list A) : list B :=
  match l with
  | [] => []
  | x :: r => f x i :: map_from f (S i) r
  end.

Definition map_idx {A B : Type} (f : A -> nat -> B) (l : list A) : list B :=
  map_from f 0 l.

(** [rows[0]]: the first row, or [undefined]. *)
Definition first_row (rows : list obj) : value :=
  match rows with
  | [] => VUndef
  | r :: _ => VObj r
  end.

(** [v.k] on a value that is an object. *)
Definition field (v : value) (k : string) : value :=
  match v with
  | VObj o => get_prop o k
  | _ => VUndef
  end.

(** [a === b].  Primitive values are equal by value; an object, an array
    or a function is equal only to itself, and the models compare values
    read from two different rows, which are never the same object. *)
Definition strict_eq (a b : value) : bool :=
  match a, b with
  | VUndef, VUndef => true
  | VNull, VNull => true
  | VBool x, VBool y => Bool.eqb x y
  | VNum x, VNum y => (x =? y)%Z
  | VStr x, VStr y => x =? y
  | _, _ => false
  end.

End JS.
Import JS.

(** ** expressError.js: the errors the models throw *)

Inductive error : Type :=
| BadRequestError (message : string)
| NotFoundError (message : string)
| UnauthorizedError (message : string)
| ExternalError (message : string).
(* [ExternalError]: an exception raised inside a collaborator (the store or
   bcrypt); no function of the models catches it. *)

Inductive result (A : Type) : Type :=
| Ok (a : A)
| Err (e : error).
Arguments Ok {A} a.
Arguments Err {A} e.

(** ** helpers/sql.js *)

Record partial_update : Type := mk_partial_update {
  setCols : string;
  values : list value
}.

Definition sqlForPartialUpdate (dataToUpdate jsToSql : obj) : result partial_update :=
  let keys := Object_keys dataToUpdate in
  if (length keys =? 0)%nat then Err (BadRequestError "No data")
  else
    let cols :=
      map_idx (fun colName idx =>
                 dq ++ ToString (or_else (read jsToSql colName) (VStr colName))
                    ++ dq ++ "=$" ++ ToString (VNum (Z.of_nat idx + 1)))
              keys in
    Ok {| setCols := join ", " cols;
          values := Object_values dataToUpdate |}.

(** ** Asynchronous functions and their collaborators

    [DbQuery sql params k] is [await db.query(sql, params)] followed by [k] on
    [result.rows]; a call without parameters has [params = []].  [BcryptHash]
    and [BcryptCompare] are the awaited calls to bcrypt. *)

Inductive prog (A : Type) : Type :=
| Ret (a : A)
| Throw (e : error)
| DbQuery (sql : string) (params : list value) (k : list obj -> prog A)
| BcryptHash (data : value) (rounds : Z) (k : string -> prog A)
| BcryptCompare (data : value) (hash : value) (k : bool -> prog A).
Arguments Ret {A} a.
Arguments Throw {A} e.
Arguments DbQuery {A} sql params k.
Arguments BcryptHash {A} data rounds k.
Arguments BcryptCompare {A} data hash k.

Fixpoint bind {A B : Type} (p : prog A) (f : A -> prog B) : prog B :=
  match p with
  | Ret a => f a
  | Throw e => Throw e
  | DbQuery sql params k => DbQuery sql params (fun rows => bind (k rows) f)
  | BcryptHash d r k => BcryptHash d r (fun h => bind (k h) f)
  | BcryptCompare d h k => BcryptCompare d h (fun b => bind (k b) f)
  end.

Definition db_query (sql : string) (params : list value) : prog (list obj) :=
  DbQuery sql params Ret.
Definition bcrypt_hash (data : value) (rounds : Z) : prog string :=
  BcryptHash data rounds Ret.
Definition bcrypt_compare (data hash : value) : prog bool :=
  BcryptCompare data hash Ret.

(** A synchronous call that may throw, inside an async function. *)
Definition lift {A : Type} (r : result A) : prog A :=
  match r with
  | Ok a => Ret a
  | Err e => Throw e
  end.

Notation "x <- p ;; q" := (bind p (fun x => q))
  (at level 61, p at next level, right associativity).

(** The collaborators: a store and a password hasher, each with a state of
    its own kind [S] (the tables; the source of salts), each free to fail. *)
Record world (S : Type) : Type := mk_world {
  w_query : string -> list value -> S -> result (list obj) * S;
  w_hash : value -> Z -> S -> result string * S;
  w_compare : value -> value -> S -> result bool * S
}.
Arguments w_query {S} w sql params s.
Arguments w_hash {S} w data rounds s.
Arguments w_compare {S} w data hash s.

(** One statement sent to the store: its text and its bound parameters. *)
Definition statement : Type := (string * list value)%type.

(** [run w p s]: the outcome of [p], the final state of the collaborators and
    the statements sent to the store, in order. *)
Fixpoint run {S A : Type} (w : world S) (p : prog A) (s : S)
  : result A * S * list statement :=
  match p with
  | Ret a => (Ok a, s, [])
  | Throw e => (Err e, s, [])
  | DbQuery sql params k =>
      match w_query w sql params s with
      | (Ok rows, s') =>
          let '(r, s'', log) := run w (k rows) s' in (r, s'', (sql, params) :: log)
      | (Err e, s') => (Err e, s', [(sql, params)])
      end
  | BcryptHash d rounds k =>
      match w_hash w d rounds s with
      | (Ok h, s') => run w (k h) s'
      | (Err e, s') => (Err e, s', [])
      end
  | BcryptCompare d h k =>
      match w_compare w d h s with
      | (Ok b, s') => run w (k b) s'
      | (Err e, s') => (Err e, s', [])
      end
  end.

Definition outcome {S A : Type} (w : world S) (p : prog A) (s : S) : result A :=
  fst (fst (run w p s)).
Definition sent {S A : Type} (w : world S) (p : prog A) (s : S) : list statement :=
  snd (run w p s).

(** ** models/company.js *)

Module Company.

Definition findAll_sql (whereStatement : string) : string :=
    "SELECT handle," ++ nl ++
    "                  name," ++ nl ++
    "                  description," ++ nl ++
    "                  num_employees AS " ++ dq ++ "numEmployees" ++ dq ++ "," ++ nl ++
    "                  logo_url AS " ++ dq ++ "logoUrl" ++ dq ++ nl ++
    "          " ++ nl ++
    "                  FROM companies" ++ nl ++
    "                  " ++ whereStatement ++ nl ++
    "                  ORDER BY name".

(** The filter text [findAll] accumulates in [whereStatement]. *)
Definition findAll_where (query : obj) : string :=
  let whereStatement := "" in
  let whereStatement :=
    if truthy (get_prop query "name") then
      if (String.length whereStatement =? 0)%nat
      then whereStatement ++ "WHERE name ilike '%" ++ ToString (get_prop query "name") ++ "%'"
      else whereStatement ++ "and name ilike '%" ++ ToString (get_prop query "name") ++ "%'"
    else whereStatement in
  let whereStatement :=
    if truthy (get_prop query "minEmployees") then
      if (String.length whereStatement =? 0)%nat
      then whereStatement ++ "WHERE num_employees >= " ++ ToString (get_prop query "minEmployees")
      else whereStatement ++ "and num_employees >= " ++ ToString (get_prop query "minEmployees")
    else whereStatement in
  let whereStatement :=
    if truthy (get_prop query "maxEmployees") then
      if (String.length whereStatement =? 0)%nat
      then whereStatement ++ "WHERE num_employees <= " ++ ToString (get_prop query "maxEmployees")
      else whereStatement ++ "and num_employees <= " ++ ToString (get_prop query "maxEmployees")
    else whereStatement in
  whereStatement.

Definition findAll (query : obj) : prog (list obj) :=
  _ <- (if truthy (get_prop query "minEmployees") && truthy (get_prop query "maxEmployees")
        then
          if gt (get_prop query "minEmployees") (get_prop query "maxEmployees")
          then Throw (BadRequestError "Min Employees cannot be greater than Max Employees")
          else Ret tt
        else Ret tt) ;;
  companiesRes <- db_query (findAll_sql (findAll_where query)) [] ;;
  Ret companiesRes.

Definition get_sql : string :=
    "SELECT c.handle," ++ nl ++
    "                  c.name," ++ nl ++
    "                  c.description," ++ nl ++
    "                  c.num_employees AS " ++ dq ++ "numEmployees" ++ dq ++ "," ++ nl ++
    "                  c.logo_url AS " ++ dq ++ "logoUrl" ++ dq ++ "," ++ nl ++
    "                  j.id," ++ nl ++
    "                  j.title," ++ nl ++
    "                  j.salary," ++ nl ++
    "                  j.equity" ++ nl ++
    "           FROM companies c LEFT JOIN jobs j ON c.handle = j.company_handle" ++ nl ++
    "           WHERE handle = $1".

Definition get (companyHandle : value) : prog value :=
  companyRes <- db_query get_sql [companyHandle] ;;
  if (length companyRes =? 0)%nat
  then Throw (NotFoundError ("No company: " ++ ToString companyHandle))
  else
    let row0 := first_row companyRes in
    let jobs :=
      map (fun r =>
             if negb (truthy (get_prop r "id")) then VUndef
             else VObj [("id", get_prop r "id"); ("title", get_prop r "title");
                        ("salary", get_prop r "salary"); ("equity", get_prop r "equity")])
          companyRes in
    Ret (VObj [("handle", field row0 "handle"); ("name", field row0 "name");
               ("description", field row0 "description");
               ("numEmployees", field row0 "numEmployees");
               ("logoUrl", field row0 "logoUrl"); ("jobs", VArr jobs)]).

Definition update_jsToSql : obj :=
  [("numEmployees", VStr "num_employees"); ("logoUrl", VStr "logo_url")].

Definition update_sql (setCols handleVarIdx : string) : string :=
    "UPDATE companies " ++ nl ++
    "                      SET " ++ setCols ++ " " ++ nl ++
    "                      WHERE handle = " ++ handleVarIdx ++ " " ++ nl ++
    "                      RETURNING handle, " ++ nl ++
    "                                name, " ++ nl ++
    "                                description, " ++ nl ++
    "                                num_employees AS " ++ dq ++ "numEmployees" ++ dq ++ ", " ++ nl ++
    "                                logo_url AS " ++ dq ++ "logoUrl" ++ dq.

Definition update (handle : value) (data : obj) : prog value :=
  u <- lift (sqlForPartialUpdate data update_jsToSql) ;;
  let handleVarIdx := "$" ++ ToString (VNum (Z.of_nat (length (values u)) + 1)) in
  let querySql := update_sql (setCols u) handleVarIdx in
  result <- db_query querySql (values u ++ [handle]) ;;
  let company := first_row result in
  if negb (truthy company)
  then Throw (NotFoundError ("No company: " ++ ToString handle))
  else Ret company.

Definition create_check_sql : string :=
    "SELECT handle" ++ nl ++
    "           FROM companies" ++ nl ++
    "           WHERE handle = $1".

Definition create_insert_sql : string :=
    "INSERT INTO companies" ++ nl ++
    "           (handle, name, description, num_employees, logo_url)" ++ nl ++
    "           VALUES ($1, $2, $3, $4, $5)" ++ nl ++
    "           RETURNING handle, name, description, num_employees AS " ++ dq ++ "numEmployees" ++ dq ++ ", logo_url AS " ++ dq ++ "logoUrl" ++ dq.

(** [create({ handle, name, description, numEmployees, logoUrl })]: [fields]
    is the object the parameter destructures. *)
Definition create (fields : obj) : prog value :=
  let handle := get_prop fields "handle" in
  let name := get_prop fields "name" in
  let description := get_prop fields "description" in
  let numEmployees := get_prop fields "numEmployees" in
  let logoUrl := get_prop fields "logoUrl" in
  duplicateCheck <- db_query create_check_sql [handle] ;;
  if truthy (first_row duplicateCheck)
  then Throw (BadRequestError ("Duplicate company: " ++ ToString handle))
  else
    result <- db_query create_insert_sql
                [handle; name; description; numEmployees; logoUrl] ;;
    let company := first_row result in
    Ret company.

Definition remove_sql : string :=
    "DELETE" ++ nl ++
    "           FROM companies" ++ nl ++
    "           WHERE handle = $1" ++ nl ++
    "           RETURNING handle".

(** The body ends without a [return]: the value is [undefined]. *)
Definition remove (handle : value) : prog value :=
  result <- db_query remove_sql [handle] ;;
  let company := first_row result in
  if negb (truthy company)
  then Throw (NotFoundError ("No company: " ++ ToString handle))
  else Ret VUndef.

End Company.

(** ** models/job.js *)

Module Job.

Definition findAll_sql (whereStatement : string) : string :=
    "SELECT id, title, salary, equity, company_handle as " ++ dq ++ "companyHandle" ++ dq ++ " " ++ nl ++
    "      FROM jobs" ++ nl ++
    "      " ++ whereStatement.

Definition findAll_where (query : obj) : string :=
  let whereStatement := "" in
  let whereStatement :=
    if truthy (get_prop query "title") then
      if (String.length whereStatement =? 0)%nat
      then whereStatement ++ "WHERE title ilike '%" ++ ToString (get_prop query "title") ++ "%'"
      else whereStatement ++ "and title ilike '%" ++ ToString (get_prop query "title") ++ "%'"
    else whereStatement in
  let whereStatement :=
    if truthy (get_prop query "minSalary") then
      if (String.length whereStatement =? 0)%nat
      then whereStatement ++ "WHERE salary >= " ++ ToString (get_prop query "minSalary")
      else whereStatement ++ "and salary >= " ++ ToString (get_prop query "minSalary")
    else whereStatement in
  let whereStatement :=
    if truthy (get_prop query "hasEquity") then
      if strict_eq_str (get_prop query "hasEquity") "true" then
        if (String.length whereStatement =? 0)%nat
        then whereStatement ++ "WHERE equity > 0"
        else whereStatement ++ "and equity > 0"
      else whereStatement
    else whereStatement in
  whereStatement.

Definition findAll (query : obj) : prog (list obj) :=
  jobs <- db_query (findAll_sql (findAll_where query)) [] ;;
  Ret jobs.

Definition update_jsToSql : obj :=
  [("title", VStr "title"); ("salary", VStr "salary"); ("equity", VStr "equity")].

Definition update_sql (setCols idVarIdx : string) : string :=
    "UPDATE jobs " ++ nl ++
    "                      SET " ++ setCols ++ " " ++ nl ++
    "                      WHERE id = " ++ idVarIdx ++ " " ++ nl ++
    "                      RETURNING id, " ++ nl ++
    "                                title, " ++ nl ++
    "                                salary, " ++ nl ++
    "                                equity, " ++ nl ++
    "                                company_handle AS " ++ dq ++ "companyHandle" ++ dq.

Definition update (id : value) (data : obj) : prog value :=
  u <- lift (sqlForPartialUpdate data update_jsToSql) ;;
  let idVarIdx := "$" ++ ToString (VNum (Z.of_nat (length (values u)) + 1)) in
  let querySql := update_sql (setCols u) idVarIdx in
  result <- db_query querySql (values u ++ [id]) ;;
  let job := first_row result in
  if negb (truthy job)
  then Throw (NotFoundError ("No job id: " ++ ToString id))
  else Ret job.

Definition create_sql : string :=
    "INSERT INTO jobs" ++ nl ++
    "           (title, salary, equity, company_handle)" ++ nl ++
    "           VALUES ($1, $2, $3, $4)" ++ nl ++
    "           RETURNING id, title, salary, equity, company_handle as " ++ dq ++ "companyHandle" ++ dq.

(** [create({ title, salary, equity, companyHandle })]. *)
Definition create (fields : obj) : prog value :=
  let title := get_prop fields "title" in
  let salary := get_prop fields "salary" in
  let equity := get_prop fields "equity" in
  let companyHandle := get_prop fields "companyHandle" in
  result <- db_query create_sql [title; salary; equity; companyHandle] ;;
  let job := first_row result in
  Ret job.

Definition get_sql : string :=
    "SELECT id, title, salary, equity, company_handle as " ++ dq ++ "companyHandle" ++ dq ++ " FROM jobs" ++ nl ++
    "           WHERE id = $1".

Definition get (id : value) : prog value :=
  results <- db_query get_sql [id] ;;
  let job := first_row results in
  if negb (truthy job)
  then Throw (NotFoundError ("No job id: " ++ ToString id))
  else Ret job.

Definition remove_sql : string :=
    "DELETE" ++ nl ++
    "           FROM jobs" ++ nl ++
    "           WHERE id = $1" ++ nl ++
    "           RETURNING id".

Definition remove (id : value) : prog value :=
  result <- db_query remove_sql [id] ;;
  let job := first_row result in
  if negb (truthy job)
  then Throw (NotFoundError ("No job id: " ++ ToString id))
  else Ret VUndef.

End Job.

(** ** models/user.js *)

Module User.

Section WithConfig.

(** [BCRYPT_WORK_FACTOR] of config.js. *)
Variable BCRYPT_WORK_FACTOR : Z.

Definition authenticate_sql : string :=
    "SELECT username," ++ nl ++
    "                  password," ++ nl ++
    "                  first_name AS " ++ dq ++ "firstName" ++ dq ++ "," ++ nl ++
    "                  last_name AS " ++ dq ++ "lastName" ++ dq ++ "," ++ nl ++
    "                  email," ++ nl ++
    "                  is_admin AS " ++ dq ++ "isAdmin" ++ dq ++ nl ++
    "           FROM users" ++ nl ++
    "           WHERE username = $1".

(** [delete user.password] on the row object [user]. *)
Definition delete_password (user : value) : value :=
  match user with
  | VObj o => VObj (delete_prop o "password")
  | _ => user
  end.

(** The body returns from inside the two [if]s ([Some]) or falls through to
    the one [throw] at its end ([None]). *)
Definition authenticate (username password : value) : prog value :=
  result <- db_query authenticate_sql [username] ;;
  let user := first_row result in
  returned <-
    (if truthy user then
       isValid <- bcrypt_compare password (field user "password") ;;
       if isValid then Ret (Some (delete_password user)) else Ret None
     else Ret None) ;;
  match returned with
  | Some user => Ret user
  | None => Throw (UnauthorizedError "Invalid username/password")
  end.

Definition register_check_sql : string :=
    "SELECT username" ++ nl ++
    "           FROM users" ++ nl ++
    "           WHERE username = $1".

Definition register_insert_sql : string :=
    "INSERT INTO users" ++ nl ++
    "           (username," ++ nl ++
    "            password," ++ nl ++
    "            first_name," ++ nl ++
    "            last_name," ++ nl ++
    "            email," ++ nl ++
    "            is_admin)" ++ nl ++
    "           VALUES ($1, $2, $3, $4, $5, $6)" ++ nl ++
    "           RETURNING username, first_name AS " ++ dq ++ "firstName" ++ dq ++ ", last_name AS " ++ dq ++ "lastName" ++ dq ++ ", email, is_admin AS " ++ dq ++ "isAdmin" ++ dq.

(** [register({ username, password, firstName, lastName, email, isAdmin })]:
    [fields] is the object the parameter destructures. *)
Definition register (fields : obj) : prog value :=
  let username := get_prop fields "username" in
  let password := get_prop fields "password" in
  let firstName := get_prop fields "firstName" in
  let lastName := get_prop fields "lastName" in
  let email := get_prop fields "email" in
  let isAdmin := get_prop fields "isAdmin" in
  duplicateCheck <- db_query register_check_sql [username] ;;
  if truthy (first_row duplicateCheck)
  then Throw (BadRequestError ("Duplicate username: " ++ ToString username))
  else
    hashedPassword <- bcrypt_hash password BCRYPT_WORK_FACTOR ;;
    result <- db_query register_insert_sql
                [username; VStr hashedPassword; firstName; lastName; email; isAdmin] ;;
    let user := first_row result in
    Ret user.

Definition get_sql : string :=
    "SELECT u.username," ++ nl ++
    "      u.first_name AS " ++ dq ++ "firstName" ++ dq ++ "," ++ nl ++
    "      u.last_name AS " ++ dq ++ "lastName" ++ dq ++ "," ++ nl ++
    "      u.email," ++ nl ++
    "      u.is_admin AS " ++ dq ++ "isAdmin" ++ dq ++ "," ++ nl ++
    "      a.job_id AS " ++ dq ++ "jobId" ++ dq ++ nl ++
    "      FROM users u LEFT JOIN applications a ON u.username = a.username" ++ nl ++
    "      WHERE u.username = $1".

Definition get (usernameFind : value) : prog value :=
  userRes <- db_query get_sql [usernameFind] ;;
  if (length userRes =? 0)%nat
  then Throw (NotFoundError ("No user: " ++ ToString usernameFind))
  else
    let row0 := first_row userRes in
    let jobsApplied := map (fun r => get_prop r "jobId") userRes in
    Ret (VObj [("username", field row0 "username"); ("firstName", field row0 "firstName");
               ("lastName", field row0 "lastName"); ("email", field row0 "email");
               ("isAdmin", field row0 "isAdmin"); ("jobsApplied", VArr jobsApplied)]).

Definition update_jsToSql : obj :=
  [("firstName", VStr "first_name"); ("lastName", VStr "last_name");
   ("isAdmin", VStr "is_admin")].

Definition update_sql (setCols usernameVarIdx : string) : string :=
    "UPDATE users " ++ nl ++
    "                      SET " ++ setCols ++ " " ++ nl ++
    "                      WHERE username = " ++ usernameVarIdx ++ " " ++ nl ++
    "                      RETURNING username," ++ nl ++
    "                                first_name AS " ++ dq ++ "firstName" ++ dq ++ "," ++ nl ++
    "                                last_name AS " ++ dq ++ "lastName" ++ dq ++ "," ++ nl ++
    "                                email," ++ nl ++
    "                                is_admin AS " ++ dq ++ "isAdmin" ++ dq.

(** [data.password = await bcrypt.hash(...)] overwrites the property of the
    caller's object; the rest of the body reads the overwritten object. *)
Definition update (username : value) (data : obj) : prog value :=
  data <- (if truthy (get_prop data "password") then
             h <- bcrypt_hash (get_prop data "password") BCRYPT_WORK_FACTOR ;;
             Ret (set_prop data "password" (VStr h))
           else Ret data) ;;
  u <- lift (sqlForPartialUpdate data update_jsToSql) ;;
  let usernameVarIdx := "$" ++ ToString (VNum (Z.of_nat (length (values u)) + 1)) in
  let querySql := update_sql (setCols u) usernameVarIdx in
  result <- db_query querySql (values u ++ [username]) ;;
  let user := first_row result in
  if negb (truthy user)
  then Throw (NotFoundError ("No user: " ++ ToString username))
  else Ret (delete_password user).

Definition findAll_users_sql : string :=
    "SELECT u.username," ++ nl ++
    "                  u.first_name AS " ++ dq ++ "firstName" ++ dq ++ "," ++ nl ++
    "                  u.last_name AS " ++ dq ++ "lastName" ++ dq ++ "," ++ nl ++
    "                  u.email," ++ nl ++
    "                  u.is_admin AS " ++ dq ++ "isAdmin" ++ dq ++ nl ++
    "           FROM users u " ++ nl ++
    "           ORDER BY u.username".

Definition findAll_jobs_sql : string :=
    "SELECT " ++ nl ++
    "      a.username," ++ nl ++
    "      a.job_id AS " ++ dq ++ "jobId" ++ dq ++ nl ++
    "      FROM applications a LEFT JOIN users u ON a.username = u.username" ++ nl ++
    "      ORDER BY a.username".

(** The two loops of [findAll]: [fold_left] runs through the rows in order,
    and [acc ++ [x]] is [acc.push(x)]. *)
Definition findAll : prog value :=
  results <- db_query findAll_users_sql [] ;;
  userJobs <- db_query findAll_jobs_sql [] ;;
  let jobs := userJobs in
  let user :=
    fold_left
      (fun user result =>
         let jobsApplied :=
           fold_left
             (fun jobsApplied job =>
                if strict_eq (get_prop job "username") (get_prop result "username")
                then (jobsApplied ++ [get_prop job "jobId"])%list
                else jobsApplied)
             jobs [] in
         let userDetails :=
           VObj [("username", get_prop result "username");
                 ("firstName", get_prop result "firstName");
                 ("lastName", get_prop result "lastName");
                 ("email", get_prop result "email");
                 ("isAdmin", get_prop result "isAdmin");
                 ("jobsApplied", VArr jobsApplied)] in
         (user ++ [userDetails])%list)
      results [] in
  Ret (VArr user).

Definition remove_sql : string :=
    "DELETE" ++ nl ++
    "           FROM users" ++ nl ++
    "           WHERE username = $1" ++ nl ++
    "           RETURNING username".

Definition remove (username : value) : prog value :=
  result <- db_query remove_sql [username] ;;
  let user := first_row result in
  if negb (truthy user)
  then Throw (NotFoundError ("No user: " ++ ToString username))
  else Ret VUndef.

Definition applyForJob_sql : string :=
    "INSERT INTO applications (username, job_id)" ++ nl ++
    "      VALUES ($1, $2) RETURNING username, job_id".

Definition applyForJob (username jobId : value) : prog value :=
  results <- db_query applyForJob_sql [username; jobId] ;;
  Ret (first_row results).

End WithConfig.

End User.

(** ** The store behind [db.query]

    The two aggregating statements of the models are outer joins.  [Store]
    holds the tables they read and the rows PostgreSQL answers them with: a
    parent with children gives one row per child, a parent without children
    gives one row whose child columns are NULL. *)

Module Store.

Record company_row : Type := mk_company {
  c_handle : string;
  c_name : string;
  c_description : string;
  c_num_employees : option Z;
  c_logo_url : option string
}.

Record job_row : Type := mk_job {
  j_id : Z;
  j_title : string;
  j_salary : option Z;
  j_equity : option string;   (* NUMERIC, read by the driver as a string *)
  j_company_handle : string
}.

Record user_row : Type := mk_user {
  u_username : string;
  u_password : string;        (* the salted hash *)
  u_first_name : string;
  u_last_name : string;
  u_email : string;
  u_is_admin : bool
}.

Record application_row : Type := mk_application {
  a_username : string;
  a_job_id : Z
}.

Definition nullable {A : Type} (f : A -> value) (x : option A) : value :=
  match x with
  | Some a => f a
  | None => VNull
  end.

Definition company_columns (c : company_row) : obj :=
  [("handle", VStr (c_handle c)); ("name", VStr (c_name c));
   ("description", VStr (c_description c));
   ("numEmployees", nullable VNum (c_num_employees c));
   ("logoUrl", nullable VStr (c_logo_url c))].

Definition jobs_of (c : company_row) (jobs : list job_row) : list job_row :=
  filter (fun j => j_company_handle j =? c_handle c) jobs.

(** The rows of [Company.get_sql] for the company [c] over the table [jobs]:
    [companies c LEFT JOIN jobs j ON c.handle = j.company_handle]. *)
Definition company_get_rows (c : company_row) (jobs : list job_row) : list obj :=
  match jobs_of c jobs with
  | [] => [(company_columns c ++
            [("id", VNull); ("title", VNull); ("salary", VNull); ("equity", VNull)])%list]
  | js => map (fun j => (company_columns c ++
                         [("id", VNum (j_id j)); ("title", VStr (j_title j));
                          ("salary", nullable VNum (j_salary j));
                          ("equity", nullable VStr (j_equity j))])%list) js
  end.

Definition user_columns (u : user_row) : obj :=
  [("username", VStr (u_username u)); ("firstName", VStr (u_first_name u));
   ("lastName", VStr (u_last_name u)); ("email", VStr (u_email u));
   ("isAdmin", VBool (u_is_admin u))].

Definition applications_of (u : user_row) (apps : list application_row)
  : list application_row :=
  filter (fun a => a_username a =? u_username u) apps.

(** The rows of [User.get_sql] for the user [u] over the table [apps]:
    [users u LEFT JOIN applications a ON u.username = a.username]. *)
Definition user_get_rows (u : user_row) (apps : list application_row) : list obj :=
  match applications_of u apps with
  | [] => [(user_columns u ++ [("jobId", VNull)])%list]
  | l => map (fun a => (user_columns u ++ [("jobId", VNum (a_job_id a))])%list) l
  end.

(** What follows the first occurrence of [marker] in [s]. *)
Fixpoint after (marker s : string) : option string :=
  if String.prefix marker s
  then Some (substring (String.length marker) (String.length s) s)
  else match s with
       | EmptyString => None
       | String _ r => after marker r
       end.

(** The pieces of [s] between the occurrences of the character [c]. *)
Fixpoint split_on (c : ascii) (s : string) : list string :=
  match s with
  | EmptyString => [EmptyString]
  | String a r =>
      if (a =? c)%char then EmptyString :: split_on c r
      else match split_on c r with
           | [] => [String a EmptyString]
           | piece :: pieces => String a piece :: pieces
           end
  end.

(** What precedes the first occurrence of the character [c] in [s]. *)
Fixpoint before (c : ascii) (s : string) : string :=
  match s with
  | EmptyString => EmptyString
  | String a r => if (a =? c)%char then EmptyString else String a (before c r)
  end.

(** The name an item of a RETURNING list gives its column: the quoted alias
    when it has one, the item itself otherwise. *)
Definition output_name (item : string) : string :=
  match after dq item with
  | Some r => before (ascii_of_nat 34) r
  | None => trim_end (trim_start item)
  end.

(** The names of the columns of the rows a statement returns, read off the
    RETURNING list in its text. *)
Definition returning_columns (sql : string) : list string :=
  match after "RETURNING " sql with
  | Some l => map output_name (split_on "," l)
  | None => []
  end.

(** A store that answers the statement with rows of exactly the columns its
    RETURNING list names. *)
Definition honours_returning {S : Type} (w : world S) (sql : string) : Prop :=
  forall params s rows s',
    w_query w sql params s = (Ok rows, s') ->
    Forall (fun r => Object_keys r = returning_columns sql) rows.

End Store.

(** A world that gives every call the same answer. *)
Definition answering (rows : list obj) (hash : string) (valid : bool) : world unit :=
  {| w_query := fun _ _ s => (Ok rows, s);
     w_hash := fun _ _ s => (Ok hash, s);
     w_compare := fun _ _ s => (Ok valid, s) |}.

(** Whether the value is an object with an own property [k]. *)
Definition has_own (v : value) (k : string) : bool :=
  match v with
  | VObj o => existsb (fun kv => fst kv =? k) o
  | _ => false
  end.

(** The segment of a SET clause for a column and a 0-based position. *)
Definition segment (column : string) (idx : nat) : string :=
  dq ++ column ++ dq ++ "=$" ++ ToString (VNum (Z.of_nat idx + 1)).

(** The placeholder of the key in the WHERE clause of an update. *)
Definition key_placeholder (u : partial_update) : string :=
  "$" ++ ToString (VNum (Z.of_nat (length (values u)) + 1)).

(** The object [Company.get] builds for a job. *)
Definition job_entry (j : Store.job_row) : value :=
  VObj [("id", VNum (Store.j_id j)); ("title", VStr (Store.j_title j));
        ("salary", Store.nullable VNum (Store.j_salary j));
        ("equity", Store.nullable VStr (Store.j_equity j))].

(** Sample rows of the tables. *)
Definition company_c1 : Store.company_row :=
  Store.mk_company "c1" "C1" "Desc1" (Some 1%Z) (Some "http://c1.img").
Definition job_j2 : Store.job_row :=
  Store.mk_job 2 "j2" (Some 120000%Z) (Some "0") "c2".
Definition job_j1 : Store.job_row :=
  Store.mk_job 1 "j1" (Some 100000%Z) (Some "0") "c1".
Definition user_u2 : Store.user_row :=
  Store.mk_user "u2" "$2b$12$hash" "U2F" "U2L" "user2@user.com" false.
Definition application_u1 : Store.application_row :=
  Store.mk_application "u1" 1.

(** A world whose store answers by the text of the statement: the rows
    [answers] holds for it, and no row for any other statement. *)
Fixpoint rows_for (answers : list (string * list obj)) (sql : string) : list obj :=
  match answers with
  | [] => []
  | (text, rows) :: rest => if text =? sql then rows else rows_for rest sql
  end.

Definition answering_by (answers : list (string * list obj)) (hash : string)
    (valid : bool) : world unit :=
  {| w_query := fun sql _ s => (Ok (rows_for answers sql), s);
     w_hash := fun _ _ s => (Ok hash, s);
     w_compare := fun _ _ s => (Ok valid, s) |}.

(** A registration and the rows a store holding the new user answers with. *)
Definition new_user_fields : obj :=
  [("username", VStr "new"); ("password", VStr "password-new");
   ("firstName", VStr "first"); ("lastName", VStr "last");
   ("email", VStr "test@test.com"); ("isAdmin", VBool false)].

Definition new_user_returned : obj :=
  [("username", VStr "new"); ("firstName", VStr "first"); ("lastName", VStr "last");
   ("email", VStr "test@test.com"); ("isAdmin", VBool false)].

Definition new_user_selected : obj :=
  [("username", VStr "new"); ("password", VStr "$2b$12$hash");
   ("firstName", VStr "first"); ("lastName", VStr "last");
   ("email", VStr "test@test.com"); ("isAdmin", VBool false)].

Definition new_user_world : world unit :=
  answering_by
    [(User.register_insert_sql, [new_user_returned]);
     (User.authenticate_sql, [new_user_selected]);
     (User.update_sql (dq ++ "password" ++ dq ++ "=$1") "$2", [new_user_returned])]
    "$2b$12$hash" true.

(** The column a key that the column-name mapping does not hold ends up
    with: the text of the property [Object.prototype] has under that name,
    or else the key itself. *)
Definition inherited_or_self (k : string) : string :=
  match inherited k with
  | Some v => ToString v
  | None => k
  end.

(** The column [Company.update] and [User.update] name for a key: the
    mapped name, and for any other key what [inherited_or_self] gives. *)
Definition company_column (k : string) : string :=
  if k =? "numEmployees" then "num_employees"
  else if k =? "logoUrl" then "logo_url"
  else inherited_or_self k.

Definition user_column (k : string) : string :=
  if k =? "firstName" then "first_name"
  else if k =? "lastName" then "last_name"
  else if k =? "isAdmin" then "is_admin"
  else inherited_or_self k.

(** A filter text from its constraints: WHERE opens the first, [and] glued
    to what precedes opens each later one. *)
Definition where_text (constraints : list string) : string :=
  match constraints with
  | [] => ""
  | c :: rest => "WHERE " ++ c ++ String.concat "" (map (fun d => "and " ++ d) rest)
  end.

(** The constraint of a criterion, when its value is truthy. *)
Definition constraint_of (v : value) (text : string) : list string :=
  if truthy v then [text] else [].

Definition Company_constraints (query : obj) : list string :=
  (constraint_of (get_prop query "name")
     ("name ilike '%" ++ ToString (get_prop query "name") ++ "%'")
   ++ constraint_of (get_prop query "minEmployees")
        ("num_employees >= " ++ ToString (get_prop query "minEmployees"))
   ++ constraint_of (get_prop query "maxEmployees")
        ("num_employees <= " ++ ToString (get_prop query "maxEmployees")))%list.

Definition Job_constraints (query : obj) : list string :=
  (constraint_of (get_prop query "title")
     ("title ilike '%" ++ ToString (get_prop query "title") ++ "%'")
   ++ constraint_of (get_prop query "minSalary")
        ("salary >= " ++ ToString (get_prop query "minSalary"))
   ++ (if strict_eq_str (get_prop query "hasEquity") "true" then ["equity > 0"] else []))%list.

(** The record [User.findAll] builds for a row of users, given the rows of
    applications. *)
Definition user_with_jobs (jobs : list obj) (result : obj) : value :=
  VObj [("username", get_prop result "username");
        ("firstName", get_prop result "firstName");
        ("lastName", get_prop result "lastName");
        ("email", get_prop result "email");
        ("isAdmin", get_prop result "isAdmin");
        ("jobsApplied",
         VArr (map (fun job => get_prop job "jobId")
                   (filter (fun job => strict_eq (get_prop job "username")
                                                 (get_prop result "username"))
                           jobs)))].

(** Sample rows for [Company.create] and [User.findAll]. *)
Definition new_company_fields : obj :=
  [("handle", VStr "new"); ("name", VStr "New"); ("description", VStr "New Description");
   ("numEmployees", VNum 1); ("logoUrl", VStr "http://new.img")].

Definition new_company_world : world unit :=
  answering_by [(Company.create_insert_sql, [new_company_fields])] "" true.

Definition users_rows : list obj :=
  [[("username", VStr "u1"); ("firstName", VStr "U1F"); ("lastName", VStr "U1L");
    ("email", VStr "u1@email.com"); ("isAdmin", VBool false)];
   [("username", VStr "u2"); ("firstName", VStr "U2F"); ("lastName", VStr "U2L");
    ("email", VStr "u2@email.com"); ("isAdmin", VBool false)]].

Definition applications_rows : list obj :=
  [[("username", VStr "u1"); ("jobId", VNum 1)];
   [("username", VStr "u1"); ("jobId", VNum 3)]].

Definition listing_world : world unit :=
  answering_by [(User.findAll_users_sql, users_rows);
                (User.findAll_jobs_sql, applications_rows)] "" true.

(** One step of the accumulation of a filter text. *)
Definition add_constraint (whereStatement : string) (present : bool) (text : string)
  : string :=
  if present then
    if (String.length whereStatement =? 0)%nat
    then whereStatement ++ "WHERE " ++ text
    else whereStatement ++ "and " ++ text
  else whereStatement.

(** The statement an [update] sends for a key and a mapping, given the column
    each key of the mapping names. *)
Definition update_statement (sql : string -> string -> string)
    (column : string -> string) (key : value) (data : obj) : statement :=
  (sql (join ", " (map_idx (fun k i => segment (column k) i) (Object_keys data)))
       ("$" ++ ToString (VNum (Z.of_nat (length data) + 1))),
   (Object_values data ++ [key])%list).

(** What an [update] makes of the store's answer to its statement. *)
Definition update_outcome {S : Type} (answer : result (list obj) * S)
    (stmt : statement) (message : string) (ret : value -> value)
  : result value * S * list statement :=
  match answer with
  | (Ok [], s') => (Err (NotFoundError message), s', [stmt])
  | (Ok (r :: _), s') => (Ok (ret (VObj r)), s', [stmt])
  | (Err e, s') => (Err e, s', [stmt])
  end.

Definition company_columns_c1 : obj := Store.company_columns company_c1.

(** * Properties *)

(** ** Lists, strings and objects *)

Lemma length_map_from {A B : Type} (f : A -> nat -> B) (l : list A) :
  forall i, length (map_from f i l) = length l.
Proof.
  induction l as [|x r IH]; intro i; simpl; [reflexivity|].
  now rewrite IH.
Qed.

Lemma nth_error_map_from {A B : Type} (f : A -> nat -> B) (l : list A) :
  forall i n x, nth_error l n = Some x ->
                nth_error (map_from f i l) n = Some (f x (i + n)%nat).
Proof.
  induction l as [|y r IH]; intros i n x H.
  - destruct n; discriminate.
  - destruct n as [|n]; simpl in *.
    + injection H as ->. now rewrite Nat.add_0_r.
    + rewrite (IH (S i) n x H). f_equal. f_equal. lia.
Qed.

Lemma join_cons_nonempty (sep x : string) (l : list string) :
  x <> "" -> join sep (x :: l) <> "".
Proof.
  intros Hx. unfold join. simpl.
  destruct l as [|y r]; [exact Hx|].
  destruct x as [|c x']; [congruence|]. simpl. discriminate.
Qed.

Lemma lookup_delete_other (o : obj) (k k' : string) :
  k <> k' -> lookup (delete_prop o k) k' = lookup o k'.
Proof.
  intros Hne. induction o as [|[a v] r IH]; simpl; [reflexivity|].
  destruct (String.eqb_spec a k) as [->|Hak]; simpl.
  - destruct (String.eqb_spec k k') as [E|_]; [contradiction|exact IH].
  - destruct (a =? k'); [reflexivity|exact IH].
Qed.

Lemma lookup_delete_same (o : obj) (k : string) :
  lookup (delete_prop o k) k = None.
Proof.
  induction o as [|[a v] r IH]; simpl; [reflexivity|].
  destruct (String.eqb_spec a k) as [->|Hak]; simpl; [exact IH|].
  destruct (String.eqb_spec a k) as [E|_]; [contradiction|exact IH].
Qed.

Lemma get_prop_delete_other (o : obj) (k k' : string) :
  k <> k' -> get_prop (delete_prop o k) k' = get_prop o k'.
Proof.
  intros H. unfold get_prop. now rewrite lookup_delete_other.
Qed.

Lemma get_prop_delete_same (o : obj) (k : string) :
  get_prop (delete_prop o k) k = VUndef.
Proof.
  unfold get_prop. now rewrite lookup_delete_same.
Qed.

Lemma has_own_delete (o : obj) (k : string) :
  has_own (VObj (delete_prop o k)) k = false.
Proof.
  simpl. induction o as [|[a v] r IH]; simpl; [reflexivity|].
  destruct (String.eqb_spec a k) as [->|Hak]; simpl; [exact IH|].
  destruct (String.eqb_spec a k) as [E|_]; [contradiction|exact IH].
Qed.

(** ** The clause builder *)

Lemma sqlForPartialUpdate_cons (kv : string * value) (r jsToSql : obj) :
  sqlForPartialUpdate (kv :: r) jsToSql =
  Ok {| setCols :=
          join ", " (map_idx (fun colName idx =>
                                segment (ToString (or_else (read jsToSql colName)
                                                           (VStr colName))) idx)
                             (Object_keys (kv :: r)));
        values := Object_values (kv :: r) |}.
Proof. reflexivity. Qed.

Lemma sqlForPartialUpdate_Ok_nonempty (data jsToSql : obj) (u : partial_update) :
  sqlForPartialUpdate data jsToSql = Ok u -> setCols u <> "".
Proof.
  destruct data as [|kv r]; [discriminate|].
  rewrite sqlForPartialUpdate_cons. intros H.
  set (seg := fun colName idx =>
                segment (ToString (or_else (read jsToSql colName) (VStr colName))) idx)
    in H.
  replace (setCols u)
    with (join ", " (seg (fst kv) 0%nat :: map_from seg 1 (Object_keys r)))
    by (injection H as <-; reflexivity).
  apply join_cons_nonempty. unfold seg, segment, dq. simpl. discriminate.
Qed.

Lemma sqlForPartialUpdate_Err (data jsToSql : obj) (e : error) :
  sqlForPartialUpdate data jsToSql = Err e ->
  data = [] /\ e = BadRequestError "No data".
Proof.
  destruct data as [|kv r].
  - intros [= <-]. split; reflexivity.
  - rewrite sqlForPartialUpdate_cons. discriminate.
Qed.

(** The cases of the helper's test file. *)
Example sql_test_all_params :
  sqlForPartialUpdate
    [("firstName", VStr "UpdateFirstName"); ("lastName", VStr "UpdateLastName");
     ("email", VStr "update@gmail.com"); ("isAdmin", VStr "true");
     ("password", VStr "updatepassword")]
    [("firstName", VStr "first_name"); ("lastName", VStr "last_name");
     ("isAdmin", VStr "is_admin")]
  = Ok {| setCols := dq ++ "first_name" ++ dq ++ "=$1, " ++ dq ++ "last_name" ++ dq
                     ++ "=$2, " ++ dq ++ "email" ++ dq ++ "=$3, " ++ dq ++ "is_admin"
                     ++ dq ++ "=$4, " ++ dq ++ "password" ++ dq ++ "=$5";
          values := [VStr "UpdateFirstName"; VStr "UpdateLastName";
                     VStr "update@gmail.com"; VStr "true"; VStr "updatepassword"] |}.
Proof. reflexivity. Qed.

Example sql_test_not_in_second_parameter :
  sqlForPartialUpdate
    [("email", VStr "update@gmail.com"); ("password", VStr "updatepassword")]
    [("firstName", VStr "first_name"); ("lastName", VStr "last_name");
     ("isAdmin", VStr "is_admin")]
  = Ok {| setCols := dq ++ "email" ++ dq ++ "=$1, " ++ dq ++ "password" ++ dq ++ "=$2";
          values := [VStr "update@gmail.com"; VStr "updatepassword"] |}.
Proof. reflexivity. Qed.

Example sql_test_no_params :
  sqlForPartialUpdate []
    [("firstName", VStr "first_name"); ("lastName", VStr "last_name");
     ("isAdmin", VStr "is_admin")]
  = Err (BadRequestError "No data").
Proof. reflexivity. Qed.

Lemma lookup_not_in (o : obj) (k : string) :
  ~ In k (Object_keys o) -> lookup o k = None.
Proof.
  induction o as [|[a v] r IH]; simpl; [reflexivity|]. intros H.
  destruct (String.eqb_spec a k) as [->|_]; [tauto|]. apply IH. tauto.
Qed.

(** Properties defined one after the other under distinct names that are
    not array indices are enumerated in the order they were defined. *)
Lemma Object_of_from (l acc : list (string * value)) :
  (forall k, In k (map fst l) -> index_of k = None) ->
  NoDup (map fst (acc ++ l)) ->
  fold_left (fun o kv => define_prop o (fst kv) (snd kv)) l acc = (acc ++ l)%list.
Proof.
  revert acc. induction l as [|[k v] r IH]; intros acc Hi Hd; simpl.
  - now rewrite app_nil_r.
  - assert (Hk : lookup acc k = None).
    { apply lookup_not_in. rewrite map_app in Hd. simpl in Hd.
      apply NoDup_remove_2 in Hd. intros Hin. apply Hd.
      apply in_or_app. now left. }
    unfold define_prop at 2. simpl fst. simpl snd.
    rewrite Hk, (Hi k (or_introl eq_refl)).
    rewrite IH.
    + now rewrite <- app_assoc.
    + intros k' Hin. apply Hi. now right.
    + now rewrite <- app_assoc.
Qed.

Lemma Object_of_plain (entries : list (string * value)) :
  NoDup (map fst entries) ->
  (forall k, In k (map fst entries) -> index_of k = None) ->
  Object_of entries = entries.
Proof.
  intros Hd Hi. exact (Object_of_from entries [] Hi Hd).
Qed.

(** C1, as the code has it.  For a non-empty update mapping,
    [sqlForPartialUpdate] returns the list of segments joined by ", " and
    the supplied values: there is one segment per own key, the segment at
    position [i] is ["column"=$(i+1)] for the key at position [i] of the
    enumeration of the mapping, the value at position [i] is that key's
    value, and the column of a key that the column-name mapping does not
    hold and that names no property of [Object.prototype] is the key itself
    (the column of a key the mapping holds is the mapped name, or the key
    itself when the mapped name is falsy).  The enumeration is the order in
    which the properties were defined when their names are distinct and none
    is an array index. *)
Theorem sqlForPartialUpdate_segments (dataToUpdate jsToSql : obj) :
  dataToUpdate <> [] ->
  (exists cols,
    sqlForPartialUpdate dataToUpdate jsToSql
    = Ok {| setCols := join ", " cols; values := map snd dataToUpdate |}
    /\ length cols = length dataToUpdate
    /\ length (map snd dataToUpdate) = length cols
    /\ forall i k v,
        nth_error dataToUpdate i = Some (k, v) ->
        exists column,
          nth_error cols i
          = Some (dq ++ column ++ dq ++ "=$" ++ ToString (VNum (Z.of_nat i + 1)))
          /\ nth_error (map snd dataToUpdate) i = Some v
          /\ (lookup jsToSql k = None -> inherited k = None -> column = k)
          /\ (forall c, lookup jsToSql k = Some c ->
                        column = if truthy c then ToString c else k))
  /\ (NoDup (Object_keys dataToUpdate) ->
      (forall k, In k (Object_keys dataToUpdate) -> index_of k = None) ->
      Object_of dataToUpdate = dataToUpdate).
Proof.
  intros Hne. split; [|apply Object_of_plain].
  destruct dataToUpdate as [|kv r]; [congruence|].
  rewrite sqlForPartialUpdate_cons.
  eexists. split; [reflexivity|].
  unfold map_idx, Object_keys.
  rewrite length_map_from, !length_map.
  split; [reflexivity|]. split; [reflexivity|].
  intros i k v Hi.
  exists (ToString (or_else (read jsToSql k) (VStr k))).
  split; [|split; [|split]].
  - erewrite nth_error_map_from.
    + reflexivity.
    + rewrite nth_error_map, Hi. reflexivity.
  - rewrite nth_error_map, Hi. reflexivity.
  - intros Hk Hp. unfold read. rewrite Hk, Hp. reflexivity.
  - intros c Hk. unfold read, or_else. rewrite Hk.
    destruct (truthy c); reflexivity.
Qed.

Lemma sqlForPartialUpdate_segments_witness :
  exists cols,
    sqlForPartialUpdate
      [("firstName", VStr "UpdateFirstName"); ("email", VStr "update@gmail.com")]
      [("firstName", VStr "first_name"); ("lastName", VStr "last_name");
       ("isAdmin", VStr "is_admin")]
    = Ok {| setCols := join ", " cols;
            values := [VStr "UpdateFirstName"; VStr "update@gmail.com"] |}
    /\ length cols = 2%nat.
Proof.
  destruct (sqlForPartialUpdate_segments
              [("firstName", VStr "UpdateFirstName"); ("email", VStr "update@gmail.com")]
              [("firstName", VStr "first_name"); ("lastName", VStr "last_name");
               ("isAdmin", VStr "is_admin")]) as [[cols [H [L _]]] _].
  - discriminate.
  - exists cols. split; [exact H|exact L].
Defined.

(** C1, the claim as stated fails.  The key [constructor], which the
    column-name mapping does not hold, does not name itself as the column but
    the text of [Object.prototype.constructor]; and a mapping whose
    properties were defined as [b] and then [1] gets the segment of [1]
    first, the array index being enumerated before the name. *)
Lemma sqlForPartialUpdate_inherited_and_index_keys :
  lookup [("firstName", VStr "first_name")] "constructor" = None
  /\ sqlForPartialUpdate [("constructor", VStr "x")] [("firstName", VStr "first_name")]
     = Ok {| setCols := dq ++ "function Object() { [native code] }" ++ dq ++ "=$1";
             values := [VStr "x"] |}
  /\ Object_of [("b", VStr "x"); ("1", VStr "y")] = [("1", VStr "y"); ("b", VStr "x")]
  /\ sqlForPartialUpdate (Object_of [("b", VStr "x"); ("1", VStr "y")]) []
     = Ok {| setCols := dq ++ "1" ++ dq ++ "=$1, " ++ dq ++ "b" ++ dq ++ "=$2";
             values := [VStr "y"; VStr "x"] |}.
Proof. repeat split. Qed.

(** ** Statements sent by the three [update] functions *)

Lemma sent_Throw {S A : Type} (w : world S) (e : error) (s : S) :
  sent (A := A) w (Throw e) s = [].
Proof. reflexivity. Qed.

(** A body that builds the clause, sends one statement and then only looks at
    the rows sends that statement and nothing else. *)
Lemma sent_one_statement {S A : Type} (w : world S) (s : S)
    (r : result partial_update) (text : partial_update -> string)
    (key : value) (finish : list obj -> prog A) :
  (forall rows, (exists a, finish rows = Ret a) \/ (exists e, finish rows = Throw e)) ->
  sent w (u <- lift r ;;
          result <- db_query (text u) (values u ++ [key]) ;;
          finish result) s
  = match r with
    | Ok u => [(text u, (values u ++ [key])%list)]
    | Err _ => []
    end.
Proof.
  intros Hfin. destruct r as [u|e]; [|reflexivity].
  unfold sent. cbn [lift bind db_query run].
  destruct (w_query w (text u) (values u ++ [key]) s) as [[rows|e] s']; [|reflexivity].
  destruct (Hfin rows) as [[a E]|[e E]]; rewrite E; reflexivity.
Qed.

Lemma Company_update_sent {S : Type} (w : world S) (s : S) (handle : value) (data : obj) :
  sent w (Company.update handle data) s
  = match sqlForPartialUpdate data Company.update_jsToSql with
    | Ok u => [(Company.update_sql (setCols u) (key_placeholder u),
                (values u ++ [handle])%list)]
    | Err _ => []
    end.
Proof.
  unfold Company.update.
  apply (sent_one_statement w s _
           (fun u => Company.update_sql (setCols u) (key_placeholder u)) handle).
  intros rows. destruct (negb (truthy (first_row rows))); eauto.
Qed.

Lemma Job_update_sent {S : Type} (w : world S) (s : S) (id : value) (data : obj) :
  sent w (Job.update id data) s
  = match sqlForPartialUpdate data Job.update_jsToSql with
    | Ok u => [(Job.update_sql (setCols u) (key_placeholder u),
                (values u ++ [id])%list)]
    | Err _ => []
    end.
Proof.
  unfold Job.update.
  apply (sent_one_statement w s _
           (fun u => Job.update_sql (setCols u) (key_placeholder u)) id).
  intros rows. destruct (negb (truthy (first_row rows))); eauto.
Qed.

(** [User.update] may hash first; [data'] is the mapping the clause is built
    from. *)
Lemma User_update_sent {S : Type} (w : world S) (s : S) (W : Z)
    (username : value) (data : obj) :
  sent w (User.update W username data) s = []
  \/ exists data',
      sent w (User.update W username data) s
      = match sqlForPartialUpdate data' User.update_jsToSql with
        | Ok u => [(User.update_sql (setCols u) (key_placeholder u),
                    (values u ++ [username])%list)]
        | Err _ => []
        end.
Proof.
  unfold User.update.
  assert (Hfin : forall rows,
             (exists a, (if negb (truthy (first_row rows))
                         then Throw (NotFoundError ("No user: " ++ ToString username))
                         else Ret (User.delete_password (first_row rows))) = Ret a)
             \/ (exists e, (if negb (truthy (first_row rows))
                            then Throw (NotFoundError ("No user: " ++ ToString username))
                            else Ret (User.delete_password (first_row rows))) = Throw e)).
  { intros rows. destruct (negb (truthy (first_row rows))); eauto. }
  destruct (truthy (get_prop data "password")).
  - unfold sent. cbn [bind bcrypt_hash run].
    destruct (w_hash w (get_prop data "password") W s) as [[h|e] s']; [|left; reflexivity].
    right. exists (set_prop data "password" (VStr h)).
    exact (sent_one_statement w s' _
             (fun u => User.update_sql (setCols u) (key_placeholder u)) username _ Hfin).
  - right. exists data. cbn [bind].
    exact (sent_one_statement w s _
             (fun u => User.update_sql (setCols u) (key_placeholder u)) username _ Hfin).
Qed.

(** C2. Whatever the column-name mapping, [sqlForPartialUpdate] on the empty
    mapping fails with [BadRequestError "No data"]; [Company.update],
    [Job.update] and [User.update] on the empty mapping throw that error
    without a call to the store; and on any mapping, every statement one of
    them sends is its UPDATE with a SET clause that is not empty. *)
Theorem update_rejects_empty_data :
  (forall jsToSql, sqlForPartialUpdate [] jsToSql = Err (BadRequestError "No data"))
  /\ (forall handle, Company.update handle [] = Throw (BadRequestError "No data"))
  /\ (forall id, Job.update id [] = Throw (BadRequestError "No data"))
  /\ (forall W username, User.update W username [] = Throw (BadRequestError "No data"))
  /\ (forall (S : Type) (w : world S) (s : S) (W : Z) (key : value) (data : obj),
        Forall (fun st => exists set idx,
                            fst st = Company.update_sql set idx /\ set <> "")
               (sent w (Company.update key data) s)
        /\ Forall (fun st => exists set idx,
                               fst st = Job.update_sql set idx /\ set <> "")
                  (sent w (Job.update key data) s)
        /\ Forall (fun st => exists set idx,
                               fst st = User.update_sql set idx /\ set <> "")
                  (sent w (User.update W key data) s)).
Proof.
  repeat split; try reflexivity.
  - rewrite Company_update_sent.
    destruct (sqlForPartialUpdate data Company.update_jsToSql) as [u|e] eqn:E;
      constructor; [|constructor].
    exists (setCols u), (key_placeholder u). split; [reflexivity|].
    exact (sqlForPartialUpdate_Ok_nonempty _ _ _ E).
  - rewrite Job_update_sent.
    destruct (sqlForPartialUpdate data Job.update_jsToSql) as [u|e] eqn:E;
      constructor; [|constructor].
    exists (setCols u), (key_placeholder u). split; [reflexivity|].
    exact (sqlForPartialUpdate_Ok_nonempty _ _ _ E).
  - destruct (User_update_sent w s W key data) as [->|[data' ->]]; [constructor|].
    destruct (sqlForPartialUpdate data' User.update_jsToSql) as [u|e] eqn:E;
      constructor; [|constructor].
    exists (setCols u), (key_placeholder u). split; [reflexivity|].
    exact (sqlForPartialUpdate_Ok_nonempty _ _ _ E).
Qed.

(** ** Aggregation over the outer joins *)

Lemma lookup_app_skip (cols tail : obj) (k : string) :
  lookup cols k = None -> lookup (cols ++ tail)%list k = lookup tail k.
Proof.
  induction cols as [|[k' x] r IH]; [reflexivity|].
  simpl. destruct (k' =? k); [discriminate|]. exact IH.
Qed.

Lemma map_jobId_rows (cols : obj) (l : list Store.application_row) :
  lookup cols "jobId" = None ->
  map (fun r => get_prop r "jobId")
      (map (fun a => (cols ++ [("jobId", VNum (Store.a_job_id a))])%list) l)
  = map (fun a => VNum (Store.a_job_id a)) l.
Proof.
  intros Hc. rewrite map_map. apply map_ext. intros a.
  unfold get_prop. now rewrite lookup_app_skip.
Qed.

Lemma User_get_rows (S : Type) (w : world S) (s s' : S)
    (u : Store.user_row) (apps : list Store.application_row) :
  w_query w User.get_sql [VStr (Store.u_username u)] s
  = (Ok (Store.user_get_rows u apps), s') ->
  outcome w (User.get (VStr (Store.u_username u))) s
  = Ok (VObj (Store.user_columns u ++
              [("jobsApplied",
                VArr match Store.applications_of u apps with
                     | [] => [VNull]
                     | l => map (fun a => VNum (Store.a_job_id a)) l
                     end)])).
Proof.
  intros H. unfold outcome, User.get. cbn [bind db_query run]. rewrite H.
  unfold Store.user_get_rows.
  destruct (Store.applications_of u apps) as [|a l]; [reflexivity|].
  cbn [map length Nat.eqb first_row run fst].
  pose proof (map_jobId_rows (Store.user_columns u) l eq_refl) as E.
  cbn [map] in E |- *. rewrite E. reflexivity.
Qed.

Lemma map_job_rows (cols : obj) (l : list Store.job_row) :
  lookup cols "id" = None -> lookup cols "title" = None ->
  lookup cols "salary" = None -> lookup cols "equity" = None ->
  Forall (fun j => Store.j_id j <> 0%Z) l ->
  map (fun r =>
         if negb (truthy (get_prop r "id")) then VUndef
         else VObj [("id", get_prop r "id"); ("title", get_prop r "title");
                    ("salary", get_prop r "salary"); ("equity", get_prop r "equity")])
      (map (fun j => (cols ++
                      [("id", VNum (Store.j_id j)); ("title", VStr (Store.j_title j));
                       ("salary", Store.nullable VNum (Store.j_salary j));
                       ("equity", Store.nullable VStr (Store.j_equity j))])%list) l)
  = map job_entry l.
Proof.
  intros H1 H2 H3 H4 Hid. rewrite map_map. apply map_ext_in. intros j Hj.
  rewrite Forall_forall in Hid. specialize (Hid j Hj).
  unfold get_prop. rewrite !lookup_app_skip by assumption. cbn.
  destruct (Z.eqb_spec (Store.j_id j) 0) as [Z0|_]; [contradiction|reflexivity].
Qed.

Lemma Company_get_rows (S : Type) (w : world S) (s s' : S)
    (c : Store.company_row) (jobs : list Store.job_row) :
  w_query w Company.get_sql [VStr (Store.c_handle c)] s
  = (Ok (Store.company_get_rows c jobs), s') ->
  Store.jobs_of c jobs <> [] ->
  Forall (fun j => Store.j_id j <> 0%Z) (Store.jobs_of c jobs) ->
  outcome w (Company.get (VStr (Store.c_handle c))) s
  = Ok (VObj (Store.company_columns c ++
              [("jobs", VArr (map job_entry (Store.jobs_of c jobs)))])).
Proof.
  intros H Hne Hid. unfold outcome, Company.get. cbn [bind db_query run]. rewrite H.
  unfold Store.company_get_rows.
  destruct (Store.jobs_of c jobs) as [|j l]; [congruence|].
  pose proof (map_job_rows (Store.company_columns c) (j :: l)
                eq_refl eq_refl eq_refl eq_refl Hid) as E.
  cbn [map length Nat.eqb first_row run fst] in E |- *.
  rewrite E. reflexivity.
Qed.

(** C3, as the code has it.  For a user that exists, [User.get] returns the
    user's columns and [jobsApplied] with one entry per row of the outer
    join: the ids of the user's applications, and the single entry [null]
    when the user has none (the row without a child is passed through).  For
    a company that exists and has jobs (with ids other than 0), [Company.get]
    returns the company's columns and [jobs] with the [{id, title, salary,
    equity}] of each of its jobs, in the order of the rows. *)
Theorem get_lists_one_entry_per_row (S : Type) (w : world S) :
  (forall s s' u apps,
      w_query w User.get_sql [VStr (Store.u_username u)] s
      = (Ok (Store.user_get_rows u apps), s') ->
      outcome w (User.get (VStr (Store.u_username u))) s
      = Ok (VObj (Store.user_columns u ++
                  [("jobsApplied",
                    VArr match Store.applications_of u apps with
                         | [] => [VNull]
                         | l => map (fun a => VNum (Store.a_job_id a)) l
                         end)])))
  /\ (forall s s' c jobs,
         w_query w Company.get_sql [VStr (Store.c_handle c)] s
         = (Ok (Store.company_get_rows c jobs), s') ->
         Store.jobs_of c jobs <> [] ->
         Forall (fun j => Store.j_id j <> 0%Z) (Store.jobs_of c jobs) ->
         outcome w (Company.get (VStr (Store.c_handle c))) s
         = Ok (VObj (Store.company_columns c ++
                     [("jobs", VArr (map job_entry (Store.jobs_of c jobs)))]))).
Proof.
  split.
  - intros s s' u apps. apply User_get_rows.
  - intros s s' c jobs. apply Company_get_rows.
Qed.

Lemma get_lists_one_entry_per_row_witness :
  outcome (answering (Store.user_get_rows user_u2 [application_u1]) "" true)
          (User.get (VStr "u2")) tt
  = Ok (VObj [("username", VStr "u2"); ("firstName", VStr "U2F");
              ("lastName", VStr "U2L"); ("email", VStr "user2@user.com");
              ("isAdmin", VBool false); ("jobsApplied", VArr [VNull])])
  /\ outcome (answering (Store.company_get_rows company_c1 [job_j1; job_j2]) "" true)
             (Company.get (VStr "c1")) tt
     = Ok (VObj [("handle", VStr "c1"); ("name", VStr "C1");
                 ("description", VStr "Desc1"); ("numEmployees", VNum 1);
                 ("logoUrl", VStr "http://c1.img");
                 ("jobs", VArr [VObj [("id", VNum 1); ("title", VStr "j1");
                                      ("salary", VNum 100000);
                                      ("equity", VStr "0")]])]).
Proof.
  split.
  - exact (proj1 (get_lists_one_entry_per_row unit
                    (answering (Store.user_get_rows user_u2 [application_u1]) "" true))
                 tt tt user_u2 [application_u1] eq_refl).
  - refine (proj2 (get_lists_one_entry_per_row unit
                     (answering (Store.company_get_rows company_c1 [job_j1; job_j2]) "" true))
                  tt tt company_c1 [job_j1; job_j2] eq_refl _ _).
    + discriminate.
    + repeat constructor; discriminate.
Defined.

(** C3, the claim as stated fails: a company without jobs ([company_c1] over
    a table holding only a job of another company) gets [jobs = [undefined]]
    from [Company.get], and a user without applications ([user_u2] over a
    table holding only an application of another user) gets
    [jobsApplied = [null]] from [User.get]; neither list is empty. *)
Lemma get_without_children_is_not_empty :
  Store.jobs_of company_c1 [job_j2] = []
  /\ outcome (answering (Store.company_get_rows company_c1 [job_j2]) "" true)
             (Company.get (VStr "c1")) tt
     = Ok (VObj [("handle", VStr "c1"); ("name", VStr "C1");
                 ("description", VStr "Desc1"); ("numEmployees", VNum 1);
                 ("logoUrl", VStr "http://c1.img"); ("jobs", VArr [VUndef])])
  /\ Store.applications_of user_u2 [application_u1] = []
  /\ outcome (answering (Store.user_get_rows user_u2 [application_u1]) "" true)
             (User.get (VStr "u2")) tt
     = Ok (VObj [("username", VStr "u2"); ("firstName", VStr "U2F");
                 ("lastName", VStr "U2L"); ("email", VStr "user2@user.com");
                 ("isAdmin", VBool false); ("jobsApplied", VArr [VNull])]).
Proof. repeat split. Qed.

(** ** [Job.update] *)

Lemma map_from_ext {A B : Type} (f g : A -> nat -> B) (l : list A) :
  (forall x i, f x i = g x i) -> forall i, map_from f i l = map_from g i l.
Proof.
  intros H. induction l as [|x r IH]; intro i; simpl; [reflexivity|].
  now rewrite H, IH.
Qed.

Lemma map_from_ext_in {A B : Type} (f g : A -> nat -> B) (l : list A) :
  (forall x i, In x l -> f x i = g x i) -> forall i, map_from f i l = map_from g i l.
Proof.
  induction l as [|x r IH]; intros H i; simpl; [reflexivity|].
  rewrite (H x i (or_introl eq_refl)), IH; [reflexivity|].
  intros y n Hy. apply H. now right.
Qed.

(** Every property of [Object.prototype] is truthy. *)
Lemma inherited_truthy (k : string) (v : value) :
  inherited k = Some v -> truthy v = true.
Proof.
  unfold inherited, Object_prototype, lookup.
  repeat match goal with
         | |- (if ?c then _ else _) = _ -> _ => destruct c
         end; intros [= <-]; reflexivity.
Qed.

(** The column of a key the column-name mapping does not hold. *)
Lemma column_of_absent (jsToSql : obj) (k : string) :
  lookup jsToSql k = None ->
  ToString (or_else (read jsToSql k) (VStr k)) = inherited_or_self k.
Proof.
  intros H. unfold read, inherited_or_self, or_else. rewrite H.
  destruct (inherited k) as [v|] eqn:E; [|reflexivity].
  now rewrite (inherited_truthy k v E).
Qed.

(** The column-name mapping of [Job.update] names title, salary and equity
    as themselves and holds no other key. *)
Lemma Job_column_exact (k : string) :
  ToString (or_else (read Job.update_jsToSql k) (VStr k)) = inherited_or_self k.
Proof.
  destruct (String.eqb_spec "title" k) as [<-|H1]; [reflexivity|].
  destruct (String.eqb_spec "salary" k) as [<-|H2]; [reflexivity|].
  destruct (String.eqb_spec "equity" k) as [<-|H3]; [reflexivity|].
  apply column_of_absent. unfold Job.update_jsToSql, lookup.
  destruct (String.eqb_spec "title" k); [contradiction|].
  destruct (String.eqb_spec "salary" k); [contradiction|].
  destruct (String.eqb_spec "equity" k); [contradiction|reflexivity].
Qed.

Lemma Job_column_is_key (k : string) :
  inherited k = None ->
  ToString (or_else (read Job.update_jsToSql k) (VStr k)) = k.
Proof.
  intros H. rewrite Job_column_exact. unfold inherited_or_self. now rewrite H.
Qed.

(** C4, as the code has it.  For a non-empty mapping [data] none of whose
    keys names a property of [Object.prototype], [Job.update] sends one
    statement: the UPDATE of jobs whose SET clause has one segment per key
    of [data], in order, each naming the key itself as the column, with the
    values of [data] followed by the id as parameters.  The clause names
    only title, salary and equity exactly when the keys of [data] are among
    them; no key is left out. *)
Theorem Job_update_set_clause_names_keys (S : Type) (w : world S) (s : S)
    (id : value) (data : obj) :
  data <> [] ->
  (forall k, In k (Object_keys data) -> inherited k = None) ->
  sent w (Job.update id data) s
  = [(Job.update_sql
        (join ", " (map_idx segment (Object_keys data)))
        ("$" ++ ToString (VNum (Z.of_nat (length data) + 1))),
      (Object_values data ++ [id])%list)].
Proof.
  intros Hne Hk. rewrite Job_update_sent.
  destruct data as [|kv r]; [congruence|].
  rewrite sqlForPartialUpdate_cons.
  unfold key_placeholder, map_idx. cbn [setCols values].
  rewrite (map_from_ext_in _ segment).
  - unfold Object_values. rewrite length_map. reflexivity.
  - intros k i Hin. now rewrite (Job_column_is_key k (Hk k Hin)).
Qed.

Lemma Job_update_set_clause_names_keys_witness :
  sent (answering [] "" true)
       (Job.update (VNum 1) [("title", VStr "New"); ("salary", VNum 200000)]) tt
  = [(Job.update_sql (dq ++ "title" ++ dq ++ "=$1, " ++ dq ++ "salary" ++ dq ++ "=$2")
                     "$3",
      [VStr "New"; VNum 200000; VNum 1])].
Proof.
  apply (Job_update_set_clause_names_keys unit (answering [] "" true) tt (VNum 1)
           [("title", VStr "New"); ("salary", VNum 200000)]).
  - discriminate.
  - intros k [<-|[<-|[]]]; reflexivity.
Defined.

(** C4, the claim as stated fails: given the key [id], [company_handle] or
    [companyHandle], [Job.update] sends an UPDATE whose SET clause names that
    column. *)
Lemma Job_update_passes_id_and_company :
  sent (answering [] "" true) (Job.update (VNum 1) [("id", VNum 99)]) tt
  = [(Job.update_sql (dq ++ "id" ++ dq ++ "=$1") "$2", [VNum 99; VNum 1])]
  /\ sent (answering [] "" true)
          (Job.update (VNum 1) [("company_handle", VStr "c2")]) tt
     = [(Job.update_sql (dq ++ "company_handle" ++ dq ++ "=$1") "$2",
         [VStr "c2"; VNum 1])]
  /\ sent (answering [] "" true)
          (Job.update (VNum 1) [("title", VStr "New"); ("companyHandle", VStr "c2")]) tt
     = [(Job.update_sql
           (dq ++ "title" ++ dq ++ "=$1, " ++ dq ++ "companyHandle" ++ dq ++ "=$2") "$3",
         [VStr "New"; VStr "c2"; VNum 1])].
Proof. repeat split. Qed.

(** ** [findAll] *)


Lemma Job_findAll_sent {S : Type} (w : world S) (s : S) (query : obj) :
  sent w (Job.findAll query) s = [(Job.findAll_sql (Job.findAll_where query), [])].
Proof.
  unfold Job.findAll, sent. cbn [bind db_query run].
  destruct (w_query w _ [] s) as [[rows|e] s']; reflexivity.
Qed.

(** C5, on the code: [findAll] writes the criteria values into the text of
    the statement and binds no parameter.  A name holding a quote ends the
    string literal of the statement, and two criteria that differ only in a
    value give two different texts. *)
Theorem findAll_interpolates_criteria :
  sent (answering [] "" true) (Company.findAll [("name", VStr "x' OR '1'='1")]) tt
  = [(Company.findAll_sql "WHERE name ilike '%x' OR '1'='1%'", [])]
  /\ sent (answering [] "" true)
          (Company.findAll [("minEmployees", VStr "1 OR 1=1")]) tt
     = [(Company.findAll_sql "WHERE num_employees >= 1 OR 1=1", [])]
  /\ sent (answering [] "" true) (Job.findAll [("title", VStr "a")]) tt
     = [(Job.findAll_sql "WHERE title ilike '%a%'", [])]
  /\ sent (answering [] "" true) (Job.findAll [("title", VStr "b")]) tt
     = [(Job.findAll_sql "WHERE title ilike '%b%'", [])]
  /\ Job.findAll_sql "WHERE title ilike '%a%'" <> Job.findAll_sql "WHERE title ilike '%b%'"
  /\ sent (answering [] "" true) (Job.findAll [("minSalary", VStr "0; DROP TABLE jobs")]) tt
     = [(Job.findAll_sql "WHERE salary >= 0; DROP TABLE jobs", [])].
Proof. repeat split. discriminate. Qed.

Lemma gt_numbers (x y : Z) : gt (VNum x) (VNum y) = (y <? x)%Z.
Proof.
  unfold gt. cbn [is_stringish andb ToNumber number_lt].
  now rewrite !Z.mul_1_r.
Qed.

(** The check does reject two numbers other than 0 in inverted order:
    [Company.findAll] is then the throw, and no statement is sent. *)
Lemma findAll_rejects_inverted_range (query : obj) (lo hi : Z) :
  get_prop query "minEmployees" = VNum lo ->
  get_prop query "maxEmployees" = VNum hi ->
  lo <> 0%Z -> hi <> 0%Z -> (hi < lo)%Z ->
  Company.findAll query
  = Throw (BadRequestError "Min Employees cannot be greater than Max Employees")
  /\ forall (S : Type) (w : world S) (s : S), sent w (Company.findAll query) s = [].
Proof.
  intros Hlo Hhi Hl Hh Hlt.
  assert (E : Company.findAll query
              = Throw (BadRequestError "Min Employees cannot be greater than Max Employees")).
  { unfold Company.findAll. rewrite Hlo, Hhi, gt_numbers. unfold truthy.
    destruct (Z.eqb_spec lo 0) as [|_]; [contradiction|].
    destruct (Z.eqb_spec hi 0) as [|_]; [contradiction|].
    cbn [negb andb]. destruct (Z.ltb_spec hi lo) as [_|Hge]; [reflexivity|lia]. }
  split; [exact E|]. intros S w s. rewrite E. reflexivity.
Qed.

(** C6, on the code.  With the query-string values ["10"] and ["9"], both
    supplied and 10 > 9, [Company.findAll] compares the two strings as text,
    does not throw, sends its statement and returns the rows; with
    [minEmployees = 5] and [maxEmployees = 0] the bound 0 counts as not
    supplied and the statement is sent with the lower bound only.  (With
    ["5"] and ["10"], a range in order, it throws.) *)
Theorem findAll_inverted_range_not_rejected :
  run (answering [] "" true)
      (Company.findAll [("minEmployees", VStr "10"); ("maxEmployees", VStr "9")]) tt
  = (Ok [], tt,
     [(Company.findAll_sql "WHERE num_employees >= 10and num_employees <= 9", [])])
  /\ run (answering [] "" true)
         (Company.findAll [("minEmployees", VNum 5); ("maxEmployees", VNum 0)]) tt
     = (Ok [], tt, [(Company.findAll_sql "WHERE num_employees >= 5", [])])
  /\ Company.findAll [("minEmployees", VStr "5"); ("maxEmployees", VStr "10")]
     = Throw (BadRequestError "Min Employees cannot be greater than Max Employees").
Proof. repeat split. Qed.

Lemma Job_findAll_run {S : Type} (w : world S) (s : S) (query : obj) :
  run w (Job.findAll query) s
  = match w_query w (Job.findAll_sql (Job.findAll_where query)) [] s with
    | (Ok rows, s') =>
        (Ok rows, s', [(Job.findAll_sql (Job.findAll_where query), [])])
    | (Err e, s') =>
        (Err e, s', [(Job.findAll_sql (Job.findAll_where query), [])])
    end.
Proof.
  unfold Job.findAll. cbn [bind db_query run].
  destruct (w_query w _ [] s) as [[rows|e] s']; reflexivity.
Qed.

(** The filter text of [Job.findAll], given the value of [hasEquity], from
    the filter text of the other criteria. *)
Lemma Job_findAll_where_hasEquity (query : obj) :
  Job.findAll_where query
  = let others := Job.findAll_where (delete_prop query "hasEquity") in
    if truthy (get_prop query "hasEquity") then
      if strict_eq_str (get_prop query "hasEquity") "true" then
        if (String.length others =? 0)%nat
        then others ++ "WHERE equity > 0" else others ++ "and equity > 0"
      else others
    else others.
Proof.
  unfold Job.findAll_where.
  rewrite !get_prop_delete_same.
  rewrite !(get_prop_delete_other query "hasEquity" "title") by discriminate.
  rewrite !(get_prop_delete_other query "hasEquity" "minSalary") by discriminate.
  reflexivity.
Qed.

(** C7, as the code has it.  [Job.findAll] sends one statement without
    parameters, the SELECT over jobs ending in the filter text, and returns
    the rows the store answers it with, as they are.  When [hasEquity] is
    the string ["true"] (the criterion as the query string carries it) the
    filter text is that of the other criteria followed by the constraint
    [equity > 0], opened by WHERE when it is the only constraint and by [and]
    otherwise.  For every other value of [hasEquity], absent, [false],
    ["false"] and the boolean [true] among them, [findAll] is what it is
    without [hasEquity]: the filter text holds the other criteria only. *)
Theorem Job_findAll_hasEquity (query : obj) :
  (forall (S : Type) (w : world S) (s : S),
      run w (Job.findAll query) s
      = match w_query w (Job.findAll_sql (Job.findAll_where query)) [] s with
        | (Ok rows, s') =>
            (Ok rows, s', [(Job.findAll_sql (Job.findAll_where query), [])])
        | (Err e, s') =>
            (Err e, s', [(Job.findAll_sql (Job.findAll_where query), [])])
        end)
  /\ (forall whereStatement,
         Job.findAll_sql whereStatement = Job.findAll_sql "" ++ whereStatement)
  /\ (get_prop query "hasEquity" = VStr "true" ->
      Job.findAll_where query
      = Job.findAll_where (delete_prop query "hasEquity")
        ++ (if (String.length (Job.findAll_where (delete_prop query "hasEquity")) =? 0)%nat
            then "WHERE equity > 0" else "and equity > 0"))
  /\ (get_prop query "hasEquity" <> VStr "true" ->
      Job.findAll_where query = Job.findAll_where (delete_prop query "hasEquity")
      /\ Job.findAll query = Job.findAll (delete_prop query "hasEquity")).
Proof.
  split; [intros S w s; apply Job_findAll_run|].
  split; [intros whereStatement; reflexivity|].
  split.
  - intros H. rewrite Job_findAll_where_hasEquity, H. cbv zeta.
    change (truthy (VStr "true")) with true.
    change (strict_eq_str (VStr "true") "true") with true. cbv iota.
    destruct (String.length (Job.findAll_where (delete_prop query "hasEquity")) =? 0)%nat;
      reflexivity.
  - intros H.
    assert (E : Job.findAll_where query = Job.findAll_where (delete_prop query "hasEquity")).
    { rewrite Job_findAll_where_hasEquity. cbv zeta.
      destruct (truthy (get_prop query "hasEquity")); [|reflexivity].
      destruct (get_prop query "hasEquity") as [| |b|n|h|l|o|f]; try reflexivity.
      cbn [strict_eq_str]. destruct (String.eqb_spec h "true") as [->|_];
        [congruence|reflexivity]. }
    split; [exact E|]. unfold Job.findAll. now rewrite E.
Qed.

Lemma Job_findAll_hasEquity_witness :
  Job.findAll_where [("minSalary", VStr "100000"); ("hasEquity", VStr "true")]
  = "WHERE salary >= 100000and equity > 0"
  /\ Job.findAll_where [("hasEquity", VStr "true")] = "WHERE equity > 0"
  /\ Job.findAll_where [("minSalary", VStr "100000"); ("hasEquity", VStr "false")]
     = "WHERE salary >= 100000".
Proof.
  split; [|split].
  - exact (proj1 (proj2 (proj2 (Job_findAll_hasEquity
                                  [("minSalary", VStr "100000");
                                   ("hasEquity", VStr "true")])))
                 eq_refl).
  - exact (proj1 (proj2 (proj2 (Job_findAll_hasEquity [("hasEquity", VStr "true")])))
                 eq_refl).
  - refine (proj1 (proj2 (proj2 (proj2 (Job_findAll_hasEquity
                                          [("minSalary", VStr "100000");
                                           ("hasEquity", VStr "false")])))
                         _)).
    discriminate.
Defined.

(** C7, the claim as stated fails: with [hasEquity] the boolean [true],
    [Job.findAll] sends the SELECT with no constraint on equity, alone and
    beside another criterion. *)
Lemma Job_findAll_boolean_true_unfiltered :
  run (answering [] "" true) (Job.findAll [("hasEquity", VBool true)]) tt
  = (Ok [], tt, [(Job.findAll_sql "", [])])
  /\ run (answering [] "" true)
         (Job.findAll [("minSalary", VNum 10); ("hasEquity", VBool true)]) tt
     = (Ok [], tt, [(Job.findAll_sql "WHERE salary >= 10", [])]).
Proof. split; reflexivity. Qed.







(** ** [User] *)

(** C8. [User.authenticate] sends its SELECT with the username as parameter.
    When the store answers with no row, and when it answers with a row whose
    hash bcrypt finds not to match the password, the outcome is the same
    [UnauthorizedError "Invalid username/password"] (the one [throw] of the
    body).  When bcrypt finds the hash to match, the outcome is the row
    without its [password] property. *)
Theorem authenticate_unauthorized_or_stripped (S : Type) (w : world S) (s : S)
    (username password : value) :
  (forall s',
      w_query w User.authenticate_sql [username] s = (Ok [], s') ->
      run w (User.authenticate username password) s
      = (Err (UnauthorizedError "Invalid username/password"), s',
         [(User.authenticate_sql, [username])]))
  /\ (forall user rest s' s'',
         w_query w User.authenticate_sql [username] s = (Ok (user :: rest), s') ->
         w_compare w password (get_prop user "password") s' = (Ok false, s'') ->
         run w (User.authenticate username password) s
         = (Err (UnauthorizedError "Invalid username/password"), s'',
            [(User.authenticate_sql, [username])]))
  /\ (forall user rest s' s'',
         w_query w User.authenticate_sql [username] s = (Ok (user :: rest), s') ->
         w_compare w password (get_prop user "password") s' = (Ok true, s'') ->
         run w (User.authenticate username password) s
         = (Ok (VObj (delete_prop user "password")), s'',
            [(User.authenticate_sql, [username])])
         /\ has_own (VObj (delete_prop user "password")) "password" = false).
Proof.
  split; [|split].
  - intros s' Hq. unfold User.authenticate. cbn [bind db_query run].
    rewrite Hq. reflexivity.
  - intros user rest s' s'' Hq Hc. unfold User.authenticate.
    cbn [bind db_query bcrypt_compare run]. rewrite Hq.
    cbn [first_row truthy field bind run]. rewrite Hc. reflexivity.
  - intros user rest s' s'' Hq Hc. split; [|apply has_own_delete].
    unfold User.authenticate.
    cbn [bind db_query bcrypt_compare run]. rewrite Hq.
    cbn [first_row truthy field bind run]. rewrite Hc. reflexivity.
Qed.

Lemma authenticate_unauthorized_or_stripped_witness :
  run (answering [] "" true) (User.authenticate (VStr "nope") (VStr "pw")) tt
  = (Err (UnauthorizedError "Invalid username/password"), tt,
     [(User.authenticate_sql, [VStr "nope"])])
  /\ run (answering [[("username", VStr "u1"); ("password", VStr "$2b$hash");
                      ("firstName", VStr "U1F")]] "" false)
         (User.authenticate (VStr "u1") (VStr "wrong")) tt
     = (Err (UnauthorizedError "Invalid username/password"), tt,
        [(User.authenticate_sql, [VStr "u1"])])
  /\ run (answering [[("username", VStr "u1"); ("password", VStr "$2b$hash");
                      ("firstName", VStr "U1F")]] "" true)
         (User.authenticate (VStr "u1") (VStr "password1")) tt
     = (Ok (VObj [("username", VStr "u1"); ("firstName", VStr "U1F")]), tt,
        [(User.authenticate_sql, [VStr "u1"])]).
Proof.
  split; [|split].
  - exact (proj1 (authenticate_unauthorized_or_stripped unit (answering [] "" true) tt
                    (VStr "nope") (VStr "pw")) tt eq_refl).
  - exact (proj1 (proj2 (authenticate_unauthorized_or_stripped unit
                           (answering [[("username", VStr "u1");
                                        ("password", VStr "$2b$hash");
                                        ("firstName", VStr "U1F")]] "" false)
                           tt (VStr "u1") (VStr "wrong")))
                 _ [] tt tt eq_refl eq_refl).
  - exact (proj1 (proj2 (proj2 (authenticate_unauthorized_or_stripped unit
                                  (answering [[("username", VStr "u1");
                                               ("password", VStr "$2b$hash");
                                               ("firstName", VStr "U1F")]] "" true)
                                  tt (VStr "u1") (VStr "password1")))
                        _ [] tt tt eq_refl eq_refl)).
Defined.

Lemma Object_keys_set_prop (o : obj) (k : string) (v : value) :
  lookup o k <> None -> Object_keys (set_prop o k v) = Object_keys o.
Proof.
  induction o as [|[a x] r IH]; simpl; [congruence|].
  destruct (a =? k); [reflexivity|]. intros H. simpl. f_equal. exact (IH H).
Qed.

Lemma get_prop_set_prop_same (o : obj) (k : string) (v : value) :
  get_prop (set_prop o k v) k = v.
Proof.
  unfold get_prop. induction o as [|[a x] r IH]; simpl.
  - now rewrite String.eqb_refl.
  - destruct (a =? k) eqn:E; simpl; rewrite E; [reflexivity|exact IH].
Qed.

Lemma get_prop_set_prop_other (o : obj) (k k' : string) (v : value) :
  k <> k' -> get_prop (set_prop o k v) k' = get_prop o k'.
Proof.
  intros Hne. unfold get_prop. induction o as [|[a x] r IH]; simpl.
  - destruct (String.eqb_spec k k'); [contradiction|reflexivity].
  - destruct (String.eqb_spec a k) as [->|Hak]; simpl.
    + destruct (String.eqb_spec k k'); [contradiction|reflexivity].
    + destruct (a =? k'); [reflexivity|exact IH].
Qed.

Lemma truthy_get_prop_present (o : obj) (k : string) :
  truthy (get_prop o k) = true -> lookup o k <> None.
Proof.
  unfold get_prop. destruct (lookup o k); [discriminate|]. simpl. discriminate.
Qed.

Lemma set_prop_nonempty (o : obj) (k : string) (v : value) :
  set_prop o k v <> [].
Proof.
  destruct o as [|[a x] r]; simpl; [discriminate|].
  destruct (a =? k); discriminate.
Qed.

Lemma has_own_keys (r : obj) (k : string) :
  has_own (VObj r) k = existsb (fun c => c =? k) (Object_keys r).
Proof.
  simpl. induction r as [|[a v] r IH]; simpl; [reflexivity|]. now rewrite IH.
Qed.

Lemma authenticate_outcome_no_password (S : Type) (w : world S) (s : S)
    (username password v : value) :
  outcome w (User.authenticate username password) s = Ok v ->
  has_own v "password" = false.
Proof.
  unfold outcome, User.authenticate. cbn [bind db_query bcrypt_compare run].
  destruct (w_query w User.authenticate_sql [username] s) as [[rows|e] s'];
    [|discriminate].
  destruct rows as [|user rest]; [discriminate|].
  cbn [first_row truthy field bind run].
  destruct (w_compare w password (get_prop user "password") s') as [[[|]|e] s''];
    cbn [fst]; try discriminate.
  intros [= <-]. apply has_own_delete.
Qed.

(** The tail the [update] of users shares with the other two: build the
    clause, send the statement, look at the first row. *)
Lemma update_tail_no_password (S : Type) (w : world S) (s : S)
    (r : result partial_update) (text : partial_update -> string)
    (key : value) (message : string) (v : value) :
  outcome w (u <- lift r ;;
             result <- db_query (text u) (values u ++ [key]) ;;
             if negb (truthy (first_row result))
             then Throw (NotFoundError message)
             else Ret (User.delete_password (first_row result))) s = Ok v ->
  has_own v "password" = false.
Proof.
  unfold outcome. destruct r as [u|e]; [|discriminate].
  cbn [lift bind db_query run].
  destruct (w_query w (text u) (values u ++ [key]) s) as [[rows|e] s'];
    [|discriminate].
  destruct rows as [|user rest]; [discriminate|].
  cbn. intros [= <-]. apply (has_own_delete user "password").
Qed.

Lemma update_outcome_no_password (S : Type) (w : world S) (s : S) (W : Z)
    (username : value) (data : obj) (v : value) :
  outcome w (User.update W username data) s = Ok v ->
  has_own v "password" = false.
Proof.
  unfold User.update.
  destruct (truthy (get_prop data "password")).
  - unfold outcome. cbn [bind bcrypt_hash run].
    destruct (w_hash w (get_prop data "password") W s) as [[h|e] s'];
      [|discriminate].
    apply (update_tail_no_password S w s' _
             (fun u => User.update_sql (setCols u) (key_placeholder u))).
  - cbn [bind].
    apply (update_tail_no_password S w s _
             (fun u => User.update_sql (setCols u) (key_placeholder u))).
Qed.

Lemma register_outcome_no_password (S : Type) (w : world S) (s : S) (W : Z)
    (fields : obj) (v : value) :
  Store.honours_returning w User.register_insert_sql ->
  outcome w (User.register W fields) s = Ok v ->
  has_own v "password" = false.
Proof.
  intros Hcols. unfold outcome, User.register. cbn [bind db_query bcrypt_hash run].
  destruct (w_query w User.register_check_sql [get_prop fields "username"] s)
    as [[rows|e] s1]; [|discriminate].
  destruct (truthy (first_row rows)); [discriminate|].
  cbn [bind run].
  destruct (w_hash w (get_prop fields "password") W s1) as [[h|e] s2]; [|discriminate].
  destruct (w_query w User.register_insert_sql _ s2) as [[rows2|e] s3] eqn:Hq;
    [|discriminate].
  apply Hcols in Hq. cbn. intros [= <-].
  destruct rows2 as [|user rest]; [reflexivity|].
  cbn [first_row]. rewrite has_own_keys.
  inversion Hq as [|? ? Hk _]; subst. rewrite Hk. reflexivity.
Qed.

Lemma register_sends_hash (S : Type) (w : world S) (s s1 s2 : S) (W : Z)
    (fields : obj) (h : string) :
  w_query w User.register_check_sql [get_prop fields "username"] s = (Ok [], s1) ->
  w_hash w (get_prop fields "password") W s1 = (Ok h, s2) ->
  sent w (User.register W fields) s
  = [(User.register_check_sql, [get_prop fields "username"]);
     (User.register_insert_sql,
      [get_prop fields "username"; VStr h; get_prop fields "firstName";
       get_prop fields "lastName"; get_prop fields "email"; get_prop fields "isAdmin"])].
Proof.
  intros Hq Hh. unfold sent, User.register. cbn [bind db_query bcrypt_hash run].
  rewrite Hq. cbn [first_row truthy bind run]. rewrite Hh.
  destruct (w_query w User.register_insert_sql _ s2) as [[rows2|e] s3]; reflexivity.
Qed.

Lemma update_sends_hash (S : Type) (w : world S) (s s1 : S) (W : Z)
    (username : value) (data : obj) (h : string) :
  truthy (get_prop data "password") = true ->
  w_hash w (get_prop data "password") W s = (Ok h, s1) ->
  exists text,
    sent w (User.update W username data) s
    = [(text, (Object_values (set_prop data "password" (VStr h)) ++ [username])%list)]
    /\ get_prop (set_prop data "password" (VStr h)) "password" = VStr h.
Proof.
  intros Ht Hh. unfold User.update. rewrite Ht.
  unfold sent. cbn [bind bcrypt_hash run]. rewrite Hh.
  pose proof (set_prop_nonempty data "password" (VStr h)) as Hne.
  destruct (set_prop data "password" (VStr h)) as [|kv r] eqn:E; [congruence|].
  rewrite sqlForPartialUpdate_cons. cbn [lift bind db_query run values setCols].
  eexists. split; [|rewrite <- E; apply get_prop_set_prop_same].
  destruct (w_query w _ (Object_values (kv :: r) ++ [username]) s1)
    as [[rows|e] s']; [|reflexivity].
  destruct (negb (truthy (first_row rows))); reflexivity.
Qed.

(** C9, as the code has it.  Whatever the store and bcrypt answer, a value
    [User.authenticate] or [User.update] returns has no [password] property
    (both delete it from the row); a value [User.register] returns has none
    as long as the store answers the INSERT with the columns its RETURNING
    list names, the password not being among them.  What [register] binds as
    the password of the INSERT is the hash bcrypt returned, and when the
    mapping holds a truthy password, what [update] binds in its place is the
    hash bcrypt returned. *)
Theorem returned_user_has_no_password (S : Type) (w : world S) (s : S) (W : Z) :
  (forall username password v,
      outcome w (User.authenticate username password) s = Ok v ->
      has_own v "password" = false)
  /\ (forall username data v,
         outcome w (User.update W username data) s = Ok v ->
         has_own v "password" = false)
  /\ (forall fields v,
         Store.honours_returning w User.register_insert_sql ->
         outcome w (User.register W fields) s = Ok v ->
         has_own v "password" = false)
  /\ (forall fields s1 s2 h,
         w_query w User.register_check_sql [get_prop fields "username"] s = (Ok [], s1) ->
         w_hash w (get_prop fields "password") W s1 = (Ok h, s2) ->
         sent w (User.register W fields) s
         = [(User.register_check_sql, [get_prop fields "username"]);
            (User.register_insert_sql,
             [get_prop fields "username"; VStr h; get_prop fields "firstName";
              get_prop fields "lastName"; get_prop fields "email";
              get_prop fields "isAdmin"])])
  /\ (forall username data s1 h,
         truthy (get_prop data "password") = true ->
         w_hash w (get_prop data "password") W s = (Ok h, s1) ->
         exists text,
           sent w (User.update W username data) s
           = [(text,
               (Object_values (set_prop data "password" (VStr h)) ++ [username])%list)]
           /\ get_prop (set_prop data "password" (VStr h)) "password" = VStr h).
Proof.
  split; [|split; [|split; [|split]]].
  - intros username password v. apply authenticate_outcome_no_password.
  - intros username data v. apply update_outcome_no_password.
  - intros fields v. apply register_outcome_no_password.
  - intros fields s1 s2 h. apply register_sends_hash.
  - intros username data s1 h. apply update_sends_hash.
Qed.

Lemma new_user_world_honours_returning :
  Store.honours_returning new_user_world User.register_insert_sql.
Proof.
  intros params s rows s' H. vm_compute in H. injection H as <- _.
  repeat constructor.
Qed.

Lemma returned_user_has_no_password_witness :
  (outcome new_user_world (User.register 12 new_user_fields) tt
   = Ok (VObj new_user_returned)
   /\ has_own (VObj new_user_returned) "password" = false)
  /\ (outcome new_user_world (User.authenticate (VStr "new") (VStr "password-new")) tt
      = Ok (VObj new_user_returned)
      /\ has_own (VObj new_user_returned) "password" = false)
  /\ (outcome new_user_world
              (User.update 12 (VStr "new") [("password", VStr "newer")]) tt
      = Ok (VObj new_user_returned)
      /\ has_own (VObj new_user_returned) "password" = false)
  /\ sent new_user_world (User.register 12 new_user_fields) tt
     = [(User.register_check_sql, [VStr "new"]);
        (User.register_insert_sql,
         [VStr "new"; VStr "$2b$12$hash"; VStr "first"; VStr "last";
          VStr "test@test.com"; VBool false])]
  /\ exists text,
      sent new_user_world (User.update 12 (VStr "new") [("password", VStr "newer")]) tt
      = [(text, [VStr "$2b$12$hash"; VStr "new"])].
Proof.
  destruct (returned_user_has_no_password unit new_user_world tt 12)
    as [Hauth [Hupd [Hreg [Hsent Hhash]]]].
  split; [|split; [|split; [|split]]].
  - split; [reflexivity|].
    exact (Hreg new_user_fields _ new_user_world_honours_returning eq_refl).
  - split; [reflexivity|].
    exact (Hauth (VStr "new") (VStr "password-new") _ eq_refl).
  - split; [reflexivity|].
    exact (Hupd (VStr "new") [("password", VStr "newer")] _ eq_refl).
  - exact (Hsent new_user_fields tt tt "$2b$12$hash" eq_refl eq_refl).
  - destruct (Hhash (VStr "new") [("password", VStr "newer")] tt "$2b$12$hash"
                eq_refl eq_refl) as [text [Ht _]].
    exists text. exact Ht.
Defined.

(** C9, the claim as stated fails: an empty password in the mapping is
    falsy, so [User.update] does not call bcrypt and binds the password as
    it was given, not a hash. *)
Lemma update_binds_empty_password_unhashed :
  run (answering [new_user_returned] "$2b$12$hash" true)
      (User.update 12 (VStr "new") [("password", VStr "")]) tt
  = (Ok (VObj new_user_returned), tt,
     [(User.update_sql (dq ++ "password" ++ dq ++ "=$1") "$2", [VStr ""; VStr "new"])]).
Proof. reflexivity. Qed.

(** * Further properties of the models *)

(** ** Look up one row, or fail *)

(** The shape [get] of jobs and the three [remove] share: one statement with
    the key as its parameter, then a look at the first row. *)
Lemma run_first_row_or_not_found (S : Type) (w : world S) (s : S)
    (sql message : string) (key : value) (ret : value -> value) :
  run w (result <- db_query sql [key] ;;
         if negb (truthy (first_row result))
         then Throw (NotFoundError message)
         else Ret (ret (first_row result))) s
  = match w_query w sql [key] s with
    | (Ok [], s') => (Err (NotFoundError message), s', [(sql, [key])])
    | (Ok (r :: _), s') => (Ok (ret (VObj r)), s', [(sql, [key])])
    | (Err e, s') => (Err e, s', [(sql, [key])])
    end.
Proof.
  cbn [bind db_query run].
  destruct (w_query w sql [key] s) as [[[|r rest]|e] s']; reflexivity.
Qed.

(** X1. [Company.create] looks the handle up first.  When the store answers
    the lookup with a row, it throws [BadRequestError "Duplicate company: h"]
    and the INSERT is never sent; when the store answers with no row, it
    sends the INSERT binding handle, name, description, numEmployees and
    logoUrl in that order and returns the first row of the answer. *)
Theorem Company_create_checks_then_inserts (S : Type) (w : world S) (s : S)
    (fields : obj) :
  (forall r rest s',
      w_query w Company.create_check_sql [get_prop fields "handle"] s
      = (Ok (r :: rest), s') ->
      run w (Company.create fields) s
      = (Err (BadRequestError
                ("Duplicate company: " ++ ToString (get_prop fields "handle"))),
         s', [(Company.create_check_sql, [get_prop fields "handle"])]))
  /\ (forall s' rows s'',
         w_query w Company.create_check_sql [get_prop fields "handle"] s
         = (Ok [], s') ->
         w_query w Company.create_insert_sql
           [get_prop fields "handle"; get_prop fields "name";
            get_prop fields "description"; get_prop fields "numEmployees";
            get_prop fields "logoUrl"] s'
         = (Ok rows, s'') ->
         run w (Company.create fields) s
         = (Ok (first_row rows), s'',
            [(Company.create_check_sql, [get_prop fields "handle"]);
             (Company.create_insert_sql,
              [get_prop fields "handle"; get_prop fields "name";
               get_prop fields "description"; get_prop fields "numEmployees";
               get_prop fields "logoUrl"])])).
Proof.
  split.
  - intros r rest s' Hq. unfold Company.create. cbn [bind db_query run].
    rewrite Hq. reflexivity.
  - intros s' rows s'' Hq Hi. unfold Company.create. cbn [bind db_query run].
    rewrite Hq. cbn [first_row truthy bind run]. rewrite Hi. reflexivity.
Qed.

Lemma Company_create_checks_then_inserts_witness :
  run (answering [new_company_fields] "" true) (Company.create new_company_fields) tt
  = (Err (BadRequestError "Duplicate company: new"), tt,
     [(Company.create_check_sql, [VStr "new"])])
  /\ run new_company_world (Company.create new_company_fields) tt
     = (Ok (VObj new_company_fields), tt,
        [(Company.create_check_sql, [VStr "new"]);
         (Company.create_insert_sql,
          [VStr "new"; VStr "New"; VStr "New Description"; VNum 1;
           VStr "http://new.img"])]).
Proof.
  split.
  - exact (proj1 (Company_create_checks_then_inserts unit
                    (answering [new_company_fields] "" true) tt new_company_fields)
                 new_company_fields [] tt eq_refl).
  - exact (proj2 (Company_create_checks_then_inserts unit new_company_world tt
                    new_company_fields)
                 tt [new_company_fields] tt eq_refl eq_refl).
Defined.

(** X2. [User.register] on a username the store already holds throws
    [BadRequestError "Duplicate username: u"] after the lookup alone: the
    password is not hashed (the state of the collaborators is the one the
    lookup left) and no INSERT is sent. *)
Theorem register_duplicate_sends_nothing (S : Type) (w : world S) (s s' : S)
    (W : Z) (fields r : obj) (rest : list obj) :
  w_query w User.register_check_sql [get_prop fields "username"] s
  = (Ok (r :: rest), s') ->
  run w (User.register W fields) s
  = (Err (BadRequestError
            ("Duplicate username: " ++ ToString (get_prop fields "username"))),
     s', [(User.register_check_sql, [get_prop fields "username"])]).
Proof.
  intros Hq. unfold User.register. cbn [bind db_query run].
  rewrite Hq. reflexivity.
Qed.

Lemma register_duplicate_sends_nothing_witness :
  run (answering [new_user_returned] "" true) (User.register 12 new_user_fields) tt
  = (Err (BadRequestError "Duplicate username: new"), tt,
     [(User.register_check_sql, [VStr "new"])]).
Proof.
  exact (register_duplicate_sends_nothing unit (answering [new_user_returned] "" true)
           tt tt 12 new_user_fields new_user_returned [] eq_refl).
Defined.

(** X3. Each [remove] sends its DELETE with the key as the one parameter.
    When the store answers with no row it throws the NotFoundError naming the
    key; when the store answers with a row it returns [undefined]. *)
Theorem remove_not_found_or_undefined (S : Type) (w : world S) (s : S) (key : value) :
  (forall s',
      (w_query w Company.remove_sql [key] s = (Ok [], s') ->
       run w (Company.remove key) s
       = (Err (NotFoundError ("No company: " ++ ToString key)), s',
          [(Company.remove_sql, [key])]))
      /\ (w_query w Job.remove_sql [key] s = (Ok [], s') ->
          run w (Job.remove key) s
          = (Err (NotFoundError ("No job id: " ++ ToString key)), s',
             [(Job.remove_sql, [key])]))
      /\ (w_query w User.remove_sql [key] s = (Ok [], s') ->
          run w (User.remove key) s
          = (Err (NotFoundError ("No user: " ++ ToString key)), s',
             [(User.remove_sql, [key])])))
  /\ (forall r rest s',
         (w_query w Company.remove_sql [key] s = (Ok (r :: rest), s') ->
          run w (Company.remove key) s = (Ok VUndef, s', [(Company.remove_sql, [key])]))
         /\ (w_query w Job.remove_sql [key] s = (Ok (r :: rest), s') ->
             run w (Job.remove key) s = (Ok VUndef, s', [(Job.remove_sql, [key])]))
         /\ (w_query w User.remove_sql [key] s = (Ok (r :: rest), s') ->
             run w (User.remove key) s = (Ok VUndef, s', [(User.remove_sql, [key])]))).
Proof.
  split; intros; repeat split; intros Hq.
  all: unfold Company.remove, Job.remove, User.remove;
    rewrite (run_first_row_or_not_found S w s _ _ key (fun _ => VUndef));
    rewrite Hq; reflexivity.
Qed.

Lemma remove_not_found_or_undefined_witness :
  run (answering [] "" true) (Company.remove (VStr "nope")) tt
  = (Err (NotFoundError "No company: nope"), tt, [(Company.remove_sql, [VStr "nope"])])
  /\ run (answering [] "" true) (Job.remove (VNum 0)) tt
     = (Err (NotFoundError "No job id: 0"), tt, [(Job.remove_sql, [VNum 0])])
  /\ run (answering [[("username", VStr "u1")]] "" true) (User.remove (VStr "u1")) tt
     = (Ok VUndef, tt, [(User.remove_sql, [VStr "u1"])]).
Proof.
  split; [|split].
  - exact (proj1 (proj1 (remove_not_found_or_undefined unit (answering [] "" true) tt
                           (VStr "nope")) tt) eq_refl).
  - exact (proj1 (proj2 (proj1 (remove_not_found_or_undefined unit
                                  (answering [] "" true) tt (VNum 0)) tt)) eq_refl).
  - exact (proj2 (proj2 (proj2 (remove_not_found_or_undefined unit
                                  (answering [[("username", VStr "u1")]] "" true) tt
                                  (VStr "u1"))
                               [("username", VStr "u1")] [] tt)) eq_refl).
Defined.

(** X4. [Company.get], [Job.get] and [User.get] send one SELECT with the key
    as the one parameter, and when the store answers with no row each throws
    the NotFoundError naming the key; [Job.get] returns the first row of a
    non-empty answer as it is. *)
Theorem get_not_found (S : Type) (w : world S) (s s' : S) (key : value) :
  (w_query w Company.get_sql [key] s = (Ok [], s') ->
   run w (Company.get key) s
   = (Err (NotFoundError ("No company: " ++ ToString key)), s',
      [(Company.get_sql, [key])]))
  /\ (w_query w User.get_sql [key] s = (Ok [], s') ->
      run w (User.get key) s
      = (Err (NotFoundError ("No user: " ++ ToString key)), s',
         [(User.get_sql, [key])]))
  /\ (w_query w Job.get_sql [key] s = (Ok [], s') ->
      run w (Job.get key) s
      = (Err (NotFoundError ("No job id: " ++ ToString key)), s',
         [(Job.get_sql, [key])]))
  /\ (forall r rest,
         w_query w Job.get_sql [key] s = (Ok (r :: rest), s') ->
         run w (Job.get key) s = (Ok (VObj r), s', [(Job.get_sql, [key])])).
Proof.
  split; [|split; [|split]].
  - intros Hq. unfold Company.get. cbn [bind db_query run]. rewrite Hq. reflexivity.
  - intros Hq. unfold User.get. cbn [bind db_query run]. rewrite Hq. reflexivity.
  - intros Hq. unfold Job.get.
    rewrite (run_first_row_or_not_found S w s _ _ key (fun v => v)), Hq. reflexivity.
  - intros r rest Hq. unfold Job.get.
    rewrite (run_first_row_or_not_found S w s _ _ key (fun v => v)), Hq. reflexivity.
Qed.

Lemma get_not_found_witness :
  run (answering [] "" true) (Company.get (VStr "nope")) tt
  = (Err (NotFoundError "No company: nope"), tt, [(Company.get_sql, [VStr "nope"])])
  /\ run (answering [] "" true) (User.get (VStr "nope")) tt
     = (Err (NotFoundError "No user: nope"), tt, [(User.get_sql, [VStr "nope"])])
  /\ run (answering [] "" true) (Job.get (VStr "0")) tt
     = (Err (NotFoundError "No job id: 0"), tt, [(Job.get_sql, [VStr "0"])])
  /\ run (answering [[("id", VNum 1); ("title", VStr "j1")]] "" true)
         (Job.get (VStr "1")) tt
     = (Ok (VObj [("id", VNum 1); ("title", VStr "j1")]), tt,
        [(Job.get_sql, [VStr "1"])]).
Proof.
  split; [|split; [|split]].
  - exact (proj1 (get_not_found unit (answering [] "" true) tt tt (VStr "nope")) eq_refl).
  - exact (proj1 (proj2 (get_not_found unit (answering [] "" true) tt tt (VStr "nope")))
                 eq_refl).
  - exact (proj1 (proj2 (proj2 (get_not_found unit (answering [] "" true) tt tt
                                  (VStr "0")))) eq_refl).
  - exact (proj2 (proj2 (proj2 (get_not_found unit
                                  (answering [[("id", VNum 1); ("title", VStr "j1")]]
                                             "" true) tt tt (VStr "1"))))
                 _ [] eq_refl).
Defined.

(** ** The statements of the three [update] *)

Lemma Company_column_of (k : string) :
  ToString (or_else (read Company.update_jsToSql k) (VStr k)) = company_column k.
Proof.
  unfold company_column.
  destruct (String.eqb_spec k "numEmployees") as [->|H1]; [reflexivity|].
  destruct (String.eqb_spec k "logoUrl") as [->|H2]; [reflexivity|].
  apply column_of_absent. unfold Company.update_jsToSql, lookup.
  destruct (String.eqb_spec "numEmployees" k); [congruence|].
  destruct (String.eqb_spec "logoUrl" k); [congruence|reflexivity].
Qed.

Lemma User_column_of (k : string) :
  ToString (or_else (read User.update_jsToSql k) (VStr k)) = user_column k.
Proof.
  unfold user_column.
  destruct (String.eqb_spec k "firstName") as [->|H1]; [reflexivity|].
  destruct (String.eqb_spec k "lastName") as [->|H2]; [reflexivity|].
  destruct (String.eqb_spec k "isAdmin") as [->|H3]; [reflexivity|].
  apply column_of_absent. unfold User.update_jsToSql, lookup.
  destruct (String.eqb_spec "firstName" k); [congruence|].
  destruct (String.eqb_spec "lastName" k); [congruence|].
  destruct (String.eqb_spec "isAdmin" k); [congruence|reflexivity].
Qed.

Lemma sqlForPartialUpdate_columns (data jsToSql : obj) (column : string -> string) :
  (forall k, ToString (or_else (read jsToSql k) (VStr k)) = column k) ->
  data <> [] ->
  sqlForPartialUpdate data jsToSql
  = Ok {| setCols := join ", " (map_idx (fun k i => segment (column k) i)
                                        (Object_keys data));
          values := Object_values data |}.
Proof.
  intros Hc Hne. destruct data as [|kv r]; [congruence|].
  rewrite sqlForPartialUpdate_cons. unfold map_idx.
  rewrite (map_from_ext _ (fun k i => segment (column k) i)); [reflexivity|].
  intros k i. now rewrite Hc.
Qed.

Lemma run_update_tail (S : Type) (w : world S) (s : S) (u0 : partial_update)
    (text : partial_update -> string) (key : value) (message : string)
    (ret : value -> value) :
  run w (u <- lift (Ok u0) ;;
         result <- db_query (text u) (values u ++ [key]) ;;
         if negb (truthy (first_row result))
         then Throw (NotFoundError message)
         else Ret (ret (first_row result))) s
  = update_outcome (w_query w (text u0) (values u0 ++ [key]) s)
      (text u0, (values u0 ++ [key])%list) message ret.
Proof.
  cbn [lift bind db_query run]. unfold update_outcome.
  destruct (w_query w (text u0) (values u0 ++ [key]) s) as [[[|r rest]|e] s'];
    reflexivity.
Qed.

(** X5. For a non-empty mapping, [Company.update] sends one statement: the
    UPDATE of companies whose SET clause names [num_employees] for
    [numEmployees], [logo_url] for [logoUrl] and every other key as it is
    (but for a key that names a property of [Object.prototype], the text of
    that property), in the order of the mapping, with the values followed by
    the handle as parameters.  The store's answer decides the outcome: no
    row is [NotFoundError "No company: h"], a row is returned as it is. *)
Theorem Company_update_runs (S : Type) (w : world S) (s : S) (handle : value)
    (data : obj) :
  data <> [] ->
  run w (Company.update handle data) s
  = update_outcome
      (w_query w (fst (update_statement Company.update_sql company_column handle data))
                 (snd (update_statement Company.update_sql company_column handle data)) s)
      (update_statement Company.update_sql company_column handle data)
      ("No company: " ++ ToString handle) (fun v => v).
Proof.
  intros Hne. unfold Company.update.
  rewrite (sqlForPartialUpdate_columns data _ company_column Company_column_of Hne).
  rewrite (run_update_tail S w s _
             (fun u => Company.update_sql (setCols u) (key_placeholder u))
             handle _ (fun v => v)).
  unfold update_statement, key_placeholder, Object_values. cbn [fst snd setCols values].
  rewrite length_map. reflexivity.
Qed.

Lemma Company_update_runs_witness :
  run (answering [] "" true)
      (Company.update (VStr "nope") [("name", VStr "New"); ("numEmployees", VNum 10)]) tt
  = (Err (NotFoundError "No company: nope"), tt,
     [(Company.update_sql
         (dq ++ "name" ++ dq ++ "=$1, " ++ dq ++ "num_employees" ++ dq ++ "=$2") "$3",
       [VStr "New"; VNum 10; VStr "nope"])]).
Proof.
  refine (eq_trans (Company_update_runs unit (answering [] "" true) tt (VStr "nope")
                      [("name", VStr "New"); ("numEmployees", VNum 10)] _) eq_refl).
  discriminate.
Defined.

(** X6. For a non-empty mapping, [Job.update] sends one statement, the
    UPDATE of jobs whose SET clause names every key as it is (but for a key
    that names a property of [Object.prototype], the text of that property),
    and the store's answer to it decides the outcome: no row is
    [NotFoundError "No job id: i"], a row is returned as it is (with whatever
    id and companyHandle the store reports). *)
Theorem Job_update_runs (S : Type) (w : world S) (s : S) (id : value) (data : obj) :
  data <> [] ->
  run w (Job.update id data) s
  = update_outcome
      (w_query w (fst (update_statement Job.update_sql inherited_or_self id data))
                 (snd (update_statement Job.update_sql inherited_or_self id data)) s)
      (update_statement Job.update_sql inherited_or_self id data)
      ("No job id: " ++ ToString id) (fun v => v).
Proof.
  intros Hne. unfold Job.update.
  rewrite (sqlForPartialUpdate_columns data _ inherited_or_self Job_column_exact Hne).
  rewrite (run_update_tail S w s _
             (fun u => Job.update_sql (setCols u) (key_placeholder u))
             id _ (fun v => v)).
  unfold update_statement, key_placeholder, Object_values. cbn [fst snd setCols values].
  rewrite length_map. reflexivity.
Qed.

Lemma Job_update_runs_witness :
  run (answering [] "" true) (Job.update (VNum 0) [("title", VStr "New")]) tt
  = (Err (NotFoundError "No job id: 0"), tt,
     [(Job.update_sql (dq ++ "title" ++ dq ++ "=$1") "$2", [VStr "New"; VNum 0])])
  /\ run (answering [] "" true) (Job.update (VNum 1) [("toString", VStr "x")]) tt
     = (Err (NotFoundError "No job id: 1"), tt,
        [(Job.update_sql (dq ++ "function toString() { [native code] }" ++ dq ++ "=$1")
                         "$2",
          [VStr "x"; VNum 1])]).
Proof.
  split.
  - refine (eq_trans (Job_update_runs unit (answering [] "" true) tt (VNum 0)
                        [("title", VStr "New")] _) eq_refl).
    discriminate.
  - refine (eq_trans (Job_update_runs unit (answering [] "" true) tt (VNum 1)
                        [("toString", VStr "x")] _) eq_refl).
    discriminate.
Defined.

(** X7. When the mapping holds a truthy [password], [User.update] has bcrypt
    hash it with the work factor and sends one UPDATE of users: its SET
    clause is that of the keys of the mapping, in their order ([first_name]
    for [firstName], [last_name] for [lastName], [is_admin] for [isAdmin],
    any other key as it is or, when it names a property of
    [Object.prototype], as the text of that property), and its parameters are the values of the mapping with the password
    replaced by the hash (every other value unchanged), followed by the
    username.  No row is [NotFoundError "No user: u"]; a row is returned
    without its [password]. *)
Theorem User_update_hashes_password (S : Type) (w : world S) (s s1 : S) (W : Z)
    (username : value) (data : obj) (h : string) :
  truthy (get_prop data "password") = true ->
  w_hash w (get_prop data "password") W s = (Ok h, s1) ->
  run w (User.update W username data) s
  = update_outcome
      (w_query w
         (fst (update_statement User.update_sql user_column username
                 (set_prop data "password" (VStr h))))
         (snd (update_statement User.update_sql user_column username
                 (set_prop data "password" (VStr h)))) s1)
      (update_statement User.update_sql user_column username
         (set_prop data "password" (VStr h)))
      ("No user: " ++ ToString username) User.delete_password
  /\ Object_keys (set_prop data "password" (VStr h)) = Object_keys data
  /\ get_prop (set_prop data "password" (VStr h)) "password" = VStr h
  /\ forall k, k <> "password" ->
               get_prop (set_prop data "password" (VStr h)) k = get_prop data k.
Proof.
  intros Ht Hh. split; [|split; [|split]].
  - unfold User.update. rewrite Ht. cbn [bind bcrypt_hash run]. rewrite Hh.
    assert (Hne : set_prop data "password" (VStr h) <> []).
    { destruct data as [|[a x] r]; simpl; [discriminate|].
      destruct (a =? "password"); discriminate. }
    rewrite (sqlForPartialUpdate_columns _ _ user_column User_column_of Hne).
    rewrite (run_update_tail S w s1 _
               (fun u => User.update_sql (setCols u) (key_placeholder u))
               username _ User.delete_password).
    unfold update_statement, key_placeholder, Object_values.
    cbn [fst snd setCols values]. rewrite length_map. reflexivity.
  - apply Object_keys_set_prop, truthy_get_prop_present, Ht.
  - apply get_prop_set_prop_same.
  - intros k Hk. apply get_prop_set_prop_other. congruence.
Qed.

Lemma User_update_hashes_password_witness :
  run new_user_world
      (User.update 12 (VStr "new") [("password", VStr "newer")]) tt
  = (Ok (VObj new_user_returned), tt,
     [(User.update_sql (dq ++ "password" ++ dq ++ "=$1") "$2",
       [VStr "$2b$12$hash"; VStr "new"])]).
Proof.
  exact (eq_trans (proj1 (User_update_hashes_password unit new_user_world tt tt 12
                            (VStr "new") [("password", VStr "newer")] "$2b$12$hash"
                            eq_refl eq_refl))
                  eq_refl).
Defined.

(** X8. When the mapping is not empty and its [password] is absent or falsy
    (the empty string, 0, null), [User.update] does not call bcrypt: it sends
    the UPDATE (columns as above) with the values of the mapping as they
    are, a falsy password among them, and the store's answer decides the
    outcome as above. *)
Theorem User_update_without_hash (S : Type) (w : world S) (s : S) (W : Z)
    (username : value) (data : obj) :
  data <> [] ->
  truthy (get_prop data "password") = false ->
  run w (User.update W username data) s
  = update_outcome
      (w_query w (fst (update_statement User.update_sql user_column username data))
                 (snd (update_statement User.update_sql user_column username data)) s)
      (update_statement User.update_sql user_column username data)
      ("No user: " ++ ToString username) User.delete_password.
Proof.
  intros Hne Hf. unfold User.update. rewrite Hf. cbn [bind].
  rewrite (sqlForPartialUpdate_columns _ _ user_column User_column_of Hne).
  rewrite (run_update_tail S w s _
             (fun u => User.update_sql (setCols u) (key_placeholder u))
             username _ User.delete_password).
  unfold update_statement, key_placeholder, Object_values.
  cbn [fst snd setCols values]. rewrite length_map. reflexivity.
Qed.

Lemma User_update_without_hash_witness :
  run (answering [] "never" true)
      (User.update 12 (VStr "nope") [("firstName", VStr "N"); ("password", VStr "")]) tt
  = (Err (NotFoundError "No user: nope"), tt,
     [(User.update_sql
         (dq ++ "first_name" ++ dq ++ "=$1, " ++ dq ++ "password" ++ dq ++ "=$2") "$3",
       [VStr "N"; VStr ""; VStr "nope"])]).
Proof.
  refine (eq_trans (User_update_without_hash unit (answering [] "never" true) tt 12
                      (VStr "nope") [("firstName", VStr "N"); ("password", VStr "")]
                      _ eq_refl) eq_refl).
  discriminate.
Defined.

(** X9. The SET clause [sqlForPartialUpdate] builds depends on the keys of
    the mapping and on the column names only: two mappings with the same keys
    get the same clause, whatever their values.  So the text of the statement
    [Company.update] or [Job.update] sends is the same for two mappings with
    the same keys, whatever the values, the key of the row and the store:
    values reach the store as parameters only. *)
Theorem update_text_depends_on_keys_only (d1 d2 : obj) :
  Object_keys d1 = Object_keys d2 ->
  (forall jsToSql,
      match sqlForPartialUpdate d1 jsToSql, sqlForPartialUpdate d2 jsToSql with
      | Ok u1, Ok u2 => setCols u1 = setCols u2
      | Err e1, Err e2 => e1 = e2
      | _, _ => False
      end)
  /\ (forall (S1 S2 : Type) (w1 : world S1) (w2 : world S2) s1 s2 k1 k2,
         map fst (sent w1 (Company.update k1 d1) s1)
         = map fst (sent w2 (Company.update k2 d2) s2)
         /\ map fst (sent w1 (Job.update k1 d1) s1)
            = map fst (sent w2 (Job.update k2 d2) s2)).
Proof.
  intros Hk.
  assert (Hl : length (Object_values d1) = length (Object_values d2)).
  { unfold Object_values. rewrite !length_map.
    rewrite <- (length_map fst d1), <- (length_map fst d2).
    unfold Object_keys in Hk. now rewrite Hk. }
  assert (Hu : forall jsToSql,
             match sqlForPartialUpdate d1 jsToSql, sqlForPartialUpdate d2 jsToSql with
             | Ok u1, Ok u2 => setCols u1 = setCols u2
                               /\ key_placeholder u1 = key_placeholder u2
             | Err e1, Err e2 => e1 = e2
             | _, _ => False
             end).
  { intros jsToSql. unfold sqlForPartialUpdate. rewrite Hk.
    destruct (length (Object_keys d2) =? 0)%nat; [reflexivity|].
    unfold key_placeholder. cbn [setCols values]. rewrite Hl. split; reflexivity. }
  split.
  - intros jsToSql. specialize (Hu jsToSql).
    destruct (sqlForPartialUpdate d1 jsToSql), (sqlForPartialUpdate d2 jsToSql);
      try exact Hu. exact (proj1 Hu).
  - intros S1 S2 w1 w2 s1 s2 k1 k2. split.
    + rewrite !Company_update_sent. specialize (Hu Company.update_jsToSql).
      destruct (sqlForPartialUpdate d1 Company.update_jsToSql),
        (sqlForPartialUpdate d2 Company.update_jsToSql); try contradiction;
        [|reflexivity].
      destruct Hu as [-> ->]. reflexivity.
    + rewrite !Job_update_sent. specialize (Hu Job.update_jsToSql).
      destruct (sqlForPartialUpdate d1 Job.update_jsToSql),
        (sqlForPartialUpdate d2 Job.update_jsToSql); try contradiction;
        [|reflexivity].
      destruct Hu as [-> ->]. reflexivity.
Qed.

Lemma update_text_depends_on_keys_only_witness :
  map fst (sent (answering [] "" true)
                (Company.update (VStr "c1") [("name", VStr "x' OR '1'='1")]) tt)
  = map fst (sent (answering [] "" true)
                  (Company.update (VStr "c2") [("name", VStr "New")]) tt).
Proof.
  exact (proj1 (proj2 (update_text_depends_on_keys_only
                         [("name", VStr "x' OR '1'='1")] [("name", VStr "New")] eq_refl)
                      unit unit (answering [] "" true) (answering [] "" true) tt tt
                      (VStr "c1") (VStr "c2"))).
Defined.

(** ** The filter text of [findAll] *)

Lemma string_app_assoc (a b c : string) : (a ++ b) ++ c = a ++ (b ++ c).
Proof. induction a as [|x a IH]; simpl; [reflexivity|]. now rewrite IH. Qed.

Lemma string_app_empty_r (a : string) : a ++ "" = a.
Proof. induction a as [|x a IH]; simpl; [reflexivity|]. now rewrite IH. Qed.

Lemma concat_empty_snoc (l : list string) (x : string) :
  String.concat "" (l ++ [x]) = String.concat "" l ++ x.
Proof.
  induction l as [|y r IH]; [reflexivity|].
  destruct r as [|z r'].
  - simpl. reflexivity.
  - change (String.concat "" ((y :: z :: r') ++ [x]))
      with (y ++ "" ++ String.concat "" ((z :: r') ++ [x])).
    rewrite IH.
    change (String.concat "" (y :: z :: r')) with (y ++ "" ++ String.concat "" (z :: r')).
    cbn [String.append]. now rewrite string_app_assoc.
Qed.

Lemma add_constraint_where_text (cs : list string) (present : bool) (text : string) :
  add_constraint (where_text cs) present text
  = where_text (cs ++ (if present then [text] else [])).
Proof.
  destruct present; cbn [add_constraint]; [|now rewrite app_nil_r].
  destruct cs as [|d r].
  - cbn. now rewrite string_app_empty_r.
  - rewrite <- app_comm_cons. cbn [where_text]. rewrite map_app. cbn [map].
    rewrite concat_empty_snoc.
    cbn [String.append String.length Nat.eqb].
    rewrite !string_app_assoc. reflexivity.
Qed.

Lemma Company_findAll_where_text (query : obj) :
  Company.findAll_where query = where_text (Company_constraints query).
Proof.
  change (Company.findAll_where query)
    with (add_constraint
            (add_constraint
               (add_constraint (where_text []) (truthy (get_prop query "name"))
                  ("name ilike '%" ++ ToString (get_prop query "name") ++ "%'"))
               (truthy (get_prop query "minEmployees"))
               ("num_employees >= " ++ ToString (get_prop query "minEmployees")))
            (truthy (get_prop query "maxEmployees"))
            ("num_employees <= " ++ ToString (get_prop query "maxEmployees"))).
  rewrite !add_constraint_where_text. cbn [app].
  unfold Company_constraints, constraint_of. now rewrite app_assoc.
Qed.

Lemma Job_findAll_where_text (query : obj) :
  Job.findAll_where query = where_text (Job_constraints query).
Proof.
  assert (E : Job.findAll_where query
    = add_constraint
        (add_constraint
           (add_constraint (where_text []) (truthy (get_prop query "title"))
              ("title ilike '%" ++ ToString (get_prop query "title") ++ "%'"))
           (truthy (get_prop query "minSalary"))
           ("salary >= " ++ ToString (get_prop query "minSalary")))
        (strict_eq_str (get_prop query "hasEquity") "true")
        "equity > 0").
  { unfold Job.findAll_where, add_constraint at 1.
    destruct (get_prop query "hasEquity") as [| |b|n|h|l|o|f] eqn:Hh;
      try reflexivity.
    - destruct b; reflexivity.
    - cbn [truthy strict_eq_str]. destruct (Z.eqb n 0); reflexivity.
    - cbn [truthy strict_eq_str].
      destruct (String.eqb_spec h "true") as [->|Hne]; [reflexivity|].
      destruct (negb (h =? "")); reflexivity. }
  rewrite E, !add_constraint_where_text. cbn [app].
  unfold Job_constraints, constraint_of. now rewrite app_assoc.
Qed.

(** X10. The filter text of [Company.findAll] is made of the constraints of
    the criteria whose value is truthy, in the order name, minEmployees,
    maxEmployees: the first is opened by [WHERE], every later one by [and]
    written right after what precedes (no blank before it), and no criterion
    gives the empty text.  The filter text of [Job.findAll] is made the same
    way from title, minSalary and, when hasEquity is the string ["true"],
    [equity > 0]. *)
Theorem findAll_where_is_where_text (query : obj) :
  Company.findAll_where query = where_text (Company_constraints query)
  /\ Job.findAll_where query = where_text (Job_constraints query).
Proof.
  split; [apply Company_findAll_where_text|apply Job_findAll_where_text].
Qed.

(** [>] between a string and a number reads the string as a number. *)
Example gt_string_number :
  gt (VStr "2.5") (VNum 2) = true /\ gt (VStr "1e3") (VNum 5) = true
  /\ gt (VStr " 10") (VNum 5) = true /\ gt (VStr "0x10") (VNum 5) = true
  /\ gt (VStr "abc") (VNum 1) = false /\ gt (VStr "10") (VStr "9") = false
  /\ gt (VStr "9007199254740993") (VNum 9007199254740992) = false.
Proof. vm_compute. repeat split. Qed.

(** X11. [Company.findAll] throws exactly when both bounds are truthy and
    [minEmployees > maxEmployees]; otherwise it sends its SELECT, with the
    filter text and no parameter, and returns the rows of the store as they
    are.  Two numbers with [minEmployees <= maxEmployees], equal bounds among
    them, are never rejected. *)
Theorem Company_findAll_range_check (query : obj) :
  (truthy (get_prop query "minEmployees") && truthy (get_prop query "maxEmployees")
   && gt (get_prop query "minEmployees") (get_prop query "maxEmployees") = true ->
   Company.findAll query
   = Throw (BadRequestError "Min Employees cannot be greater than Max Employees"))
  /\ (truthy (get_prop query "minEmployees") && truthy (get_prop query "maxEmployees")
      && gt (get_prop query "minEmployees") (get_prop query "maxEmployees") = false ->
      forall (S : Type) (w : world S) (s : S),
        run w (Company.findAll query) s
        = match w_query w (Company.findAll_sql (where_text (Company_constraints query)))
                  [] s with
          | (Ok rows, s') =>
              (Ok rows, s',
               [(Company.findAll_sql (where_text (Company_constraints query)), [])])
          | (Err e, s') =>
              (Err e, s',
               [(Company.findAll_sql (where_text (Company_constraints query)), [])])
          end)
  /\ (forall lo hi,
         get_prop query "minEmployees" = VNum lo ->
         get_prop query "maxEmployees" = VNum hi ->
         (lo <= hi)%Z ->
         truthy (get_prop query "minEmployees") && truthy (get_prop query "maxEmployees")
         && gt (get_prop query "minEmployees") (get_prop query "maxEmployees") = false).
Proof.
  split; [|split].
  - intros H. unfold Company.findAll.
    apply andb_prop in H. destruct H as [H1 H2]. rewrite H1, H2. reflexivity.
  - intros H S w s. unfold Company.findAll.
    rewrite <- Company_findAll_where_text.
    destruct (truthy (get_prop query "minEmployees")
              && truthy (get_prop query "maxEmployees")).
    + simpl in H. rewrite H. cbn [bind db_query run].
      destruct (w_query w _ [] s) as [[rows|e] s']; reflexivity.
    + cbn [bind db_query run].
      destruct (w_query w _ [] s) as [[rows|e] s']; reflexivity.
  - intros lo hi Hlo Hhi Hle. rewrite Hlo, Hhi, gt_numbers.
    destruct (Z.ltb_spec hi lo) as [Hlt|_]; [lia|]. apply andb_false_r.
Qed.

Lemma Company_findAll_range_check_witness :
  run (answering [company_columns_c1] "" true)
      (Company.findAll [("minEmployees", VNum 1); ("maxEmployees", VNum 1)]) tt
  = (Ok [company_columns_c1], tt,
     [(Company.findAll_sql "WHERE num_employees >= 1and num_employees <= 1", [])])
  /\ Company.findAll [("minEmployees", VStr "2.5"); ("maxEmployees", VNum 2)]
     = Throw (BadRequestError "Min Employees cannot be greater than Max Employees").
Proof.
  split.
  - pose proof (Company_findAll_range_check
                  [("minEmployees", VNum 1); ("maxEmployees", VNum 1)])
      as [_ [Hrun Hle]].
    exact (eq_trans (Hrun (Hle 1%Z 1%Z eq_refl eq_refl (Z.le_refl 1))
                          unit (answering [company_columns_c1] "" true) tt)
                    eq_refl).
  - exact (proj1 (Company_findAll_range_check
                    [("minEmployees", VStr "2.5"); ("maxEmployees", VNum 2)])
                 eq_refl).
Defined.

(** ** [User.findAll] *)

Lemma fold_left_push_filter {A B : Type} (p : A -> bool) (g : A -> B) (l : list A) :
  forall acc,
    fold_left (fun acc x => if p x then (acc ++ [g x])%list else acc) l acc
    = (acc ++ map g (filter p l))%list.
Proof.
  induction l as [|x r IH]; intro acc; simpl; [now rewrite app_nil_r|].
  rewrite IH. destruct (p x); [|reflexivity].
  simpl. now rewrite <- app_assoc.
Qed.

Lemma filter_none {A : Type} (p : A -> bool) (l : list A) :
  (forall x, In x l -> p x = false) -> filter p l = [].
Proof.
  induction l as [|x r IH]; intros H; [reflexivity|]. simpl.
  rewrite (H x (or_introl eq_refl)). apply IH. intros y Hy. apply H. now right.
Qed.

Lemma findAll_loop (jobs users : list obj) :
  forall acc,
    fold_left
      (fun user result =>
         (user ++
          [VObj [("username", get_prop result "username");
                 ("firstName", get_prop result "firstName");
                 ("lastName", get_prop result "lastName");
                 ("email", get_prop result "email");
                 ("isAdmin", get_prop result "isAdmin");
                 ("jobsApplied",
                  VArr (fold_left
                          (fun jobsApplied job =>
                             if strict_eq (get_prop job "username")
                                          (get_prop result "username")
                             then (jobsApplied ++ [get_prop job "jobId"])%list
                             else jobsApplied)
                          jobs []))]])%list)
      users acc
    = (acc ++ map (user_with_jobs jobs) users)%list.
Proof.
  induction users as [|u r IH]; intro acc; simpl; [now rewrite app_nil_r|].
  rewrite IH, <- app_assoc. simpl.
  rewrite (fold_left_push_filter
             (fun job => strict_eq (get_prop job "username") (get_prop u "username"))
             (fun job => get_prop job "jobId") jobs []).
  reflexivity.
Qed.

(** X12. [User.findAll] sends two statements without parameters, the SELECT
    over users and then the SELECT over applications, and returns one record
    per row of users, in the order of the rows: the five columns of the user
    and [jobsApplied], the job ids of the application rows whose username is
    that of the user, in the order of those rows.  A user no application row
    names gets the empty list, and every record has exactly these six
    properties. *)
Theorem User_findAll_groups_applications (S : Type) (w : world S) (s s1 s2 : S)
    (users jobs : list obj) :
  w_query w User.findAll_users_sql [] s = (Ok users, s1) ->
  w_query w User.findAll_jobs_sql [] s1 = (Ok jobs, s2) ->
  run w User.findAll s
  = (Ok (VArr (map (user_with_jobs jobs) users)), s2,
     [(User.findAll_users_sql, []); (User.findAll_jobs_sql, [])])
  /\ length (map (user_with_jobs jobs) users) = length users
  /\ forall u,
      In u users ->
      (forall job, In job jobs ->
                   strict_eq (get_prop job "username") (get_prop u "username") = false) ->
      field (user_with_jobs jobs u) "jobsApplied" = VArr [].
Proof.
  intros Hu Hj. split; [|split].
  - unfold User.findAll. cbn [bind db_query run]. rewrite Hu.
    cbn [bind run]. rewrite Hj. cbn [bind run].
    rewrite (findAll_loop jobs users []). reflexivity.
  - apply length_map.
  - intros u _ Hno. unfold user_with_jobs. cbn.
    replace (filter (fun job => strict_eq (get_prop job "username")
                                          (get_prop u "username")) jobs)
      with (@nil obj); [reflexivity|].
    symmetry. apply filter_none. exact Hno.
Qed.

Lemma User_findAll_groups_applications_witness :
  run listing_world User.findAll tt
  = (Ok (VArr [VObj [("username", VStr "u1"); ("firstName", VStr "U1F");
                     ("lastName", VStr "U1L"); ("email", VStr "u1@email.com");
                     ("isAdmin", VBool false);
                     ("jobsApplied", VArr [VNum 1; VNum 3])];
               VObj [("username", VStr "u2"); ("firstName", VStr "U2F");
                     ("lastName", VStr "U2L"); ("email", VStr "u2@email.com");
                     ("isAdmin", VBool false); ("jobsApplied", VArr [])]]),
     tt, [(User.findAll_users_sql, []); (User.findAll_jobs_sql, [])]).
Proof.
  exact (eq_trans (proj1 (User_findAll_groups_applications unit listing_world tt tt tt
                            users_rows applications_rows eq_refl eq_refl))
                  eq_refl).
Defined.

(** ** Inserts without a lookup *)

(** X13. [Job.create] and [User.applyForJob] send one statement each, their
    INSERT, with no lookup before it, and return the first row of the answer
    ([undefined] when the store answers with no row).  [Job.create] binds
    title, salary, equity and companyHandle in that order and reads nothing
    else of its argument: two arguments that agree on these four properties
    give the same call, whatever id or other property they hold. *)
Theorem create_and_apply_insert_directly (S : Type) (w : world S) (s : S) :
  (forall fields,
      run w (Job.create fields) s
      = match w_query w Job.create_sql
                [get_prop fields "title"; get_prop fields "salary";
                 get_prop fields "equity"; get_prop fields "companyHandle"] s with
        | (Ok rows, s') =>
            (Ok (first_row rows), s',
             [(Job.create_sql,
               [get_prop fields "title"; get_prop fields "salary";
                get_prop fields "equity"; get_prop fields "companyHandle"])])
        | (Err e, s') =>
            (Err e, s',
             [(Job.create_sql,
               [get_prop fields "title"; get_prop fields "salary";
                get_prop fields "equity"; get_prop fields "companyHandle"])])
        end)
  /\ (forall username jobId,
         run w (User.applyForJob username jobId) s
         = match w_query w User.applyForJob_sql [username; jobId] s with
           | (Ok rows, s') =>
               (Ok (first_row rows), s', [(User.applyForJob_sql, [username; jobId])])
           | (Err e, s') => (Err e, s', [(User.applyForJob_sql, [username; jobId])])
           end)
  /\ (forall f1 f2,
         (forall k, In k ["title"; "salary"; "equity"; "companyHandle"] ->
                    get_prop f1 k = get_prop f2 k) ->
         Job.create f1 = Job.create f2).
Proof.
  split; [|split].
  - intros fields. unfold Job.create. cbn [bind db_query run].
    destruct (w_query w Job.create_sql _ s) as [[rows|e] s']; reflexivity.
  - intros username jobId. unfold User.applyForJob. cbn [bind db_query run].
    destruct (w_query w User.applyForJob_sql _ s) as [[rows|e] s']; reflexivity.
  - intros f1 f2 H. unfold Job.create.
    rewrite (H "title"), (H "salary"), (H "equity"), (H "companyHandle");
      simpl; tauto.
Qed.

Lemma create_and_apply_insert_directly_witness :
  Job.create [("title", VStr "new"); ("salary", VNum 90000); ("equity", VNum 0);
              ("companyHandle", VStr "c1")]
  = Job.create [("id", VNum 1); ("title", VStr "new"); ("salary", VNum 90000);
                ("equity", VNum 0); ("companyHandle", VStr "c1")].
Proof.
  apply (proj2 (proj2 (create_and_apply_insert_directly unit (answering [] "" true) tt))).
  intros k [<-|[<-|[<-|[<-|[]]]]]; reflexivity.
Defined.

(** ** Register, then authenticate *)

Lemma run_bind (S A B : Type) (w : world S) (p : prog A) (f : A -> prog B) :
  forall s,
    run w (bind p f) s
    = match run w p s with
      | (Ok a, s', log) =>
          let '(r, s'', log') := run w (f a) s' in (r, s'', (log ++ log')%list)
      | (Err e, s', log) => (Err e, s', log)
      end.
Proof.
  induction p as [a|e|sql params k IH|d r k IH|d h k IH]; intro s; cbn [bind run].
  - destruct (run w (f a) s) as [[r s''] log']. reflexivity.
  - reflexivity.
  - destruct (w_query w sql params s) as [[rows|e] s']; [|reflexivity].
    rewrite IH. destruct (run w (k rows) s') as [[[a|e] s''] log]; [|reflexivity].
    destruct (run w (f a) s'') as [[r s3] log']. reflexivity.
  - destruct (w_hash w d r s) as [[x|e] s']; [|reflexivity]. apply IH.
  - destruct (w_compare w d h s) as [[x|e] s']; [|reflexivity]. apply IH.
Qed.

(** X14. Registering and then authenticating with the same username and
    password gives the same record twice, when the collaborators keep their
    contracts: the store reports no such user at first, answers the INSERT
    with the row [returned], later answers the SELECT of [authenticate] with
    that row and the password it was given, and bcrypt accepts the password
    against the hash it made.  The hash bound in the INSERT is the one
    compared, and three statements are sent. *)
Theorem register_then_authenticate (S : Type) (w : world S) (W : Z) (fields : obj)
    (s0 s1 s2 s3 s4 s5 : S) (h : string) (returned selected : obj) :
  w_query w User.register_check_sql [get_prop fields "username"] s0 = (Ok [], s1) ->
  w_hash w (get_prop fields "password") W s1 = (Ok h, s2) ->
  w_query w User.register_insert_sql
    [get_prop fields "username"; VStr h; get_prop fields "firstName";
     get_prop fields "lastName"; get_prop fields "email"; get_prop fields "isAdmin"] s2
  = (Ok [returned], s3) ->
  w_query w User.authenticate_sql [get_prop fields "username"] s3
  = (Ok [selected], s4) ->
  get_prop selected "password" = VStr h ->
  delete_prop selected "password" = returned ->
  w_compare w (get_prop fields "password") (VStr h) s4 = (Ok true, s5) ->
  run w (registered <- User.register W fields ;;
         authenticated <- User.authenticate (get_prop fields "username")
                            (get_prop fields "password") ;;
         Ret (registered, authenticated)) s0
  = (Ok (VObj returned, VObj returned), s5,
     [(User.register_check_sql, [get_prop fields "username"]);
      (User.register_insert_sql,
       [get_prop fields "username"; VStr h; get_prop fields "firstName";
        get_prop fields "lastName"; get_prop fields "email"; get_prop fields "isAdmin"]);
      (User.authenticate_sql, [get_prop fields "username"])]).
Proof.
  intros Hcheck Hhash Hins Hsel Hpw Hdel Hcmp.
  assert (Hreg : run w (User.register W fields) s0
                 = (Ok (VObj returned), s3,
                    [(User.register_check_sql, [get_prop fields "username"]);
                     (User.register_insert_sql,
                      [get_prop fields "username"; VStr h; get_prop fields "firstName";
                       get_prop fields "lastName"; get_prop fields "email";
                       get_prop fields "isAdmin"])])).
  { unfold User.register. cbn [bind db_query bcrypt_hash run]. rewrite Hcheck.
    cbn [first_row truthy bind run]. rewrite Hhash, Hins. reflexivity. }
  assert (Hauth : run w (User.authenticate (get_prop fields "username")
                           (get_prop fields "password")) s3
                  = (Ok (VObj returned), s5,
                     [(User.authenticate_sql, [get_prop fields "username"])])).
  { unfold User.authenticate. cbn [bind db_query bcrypt_compare run]. rewrite Hsel.
    cbn [first_row truthy field bind run]. rewrite Hpw, Hcmp.
    cbn [bind run User.delete_password]. rewrite Hdel. reflexivity. }
  rewrite run_bind, Hreg. rewrite run_bind, Hauth. reflexivity.
Qed.

Lemma register_then_authenticate_witness :
  run new_user_world
      (registered <- User.register 12 new_user_fields ;;
       authenticated <- User.authenticate (VStr "new") (VStr "password-new") ;;
       Ret (registered, authenticated)) tt
  = (Ok (VObj new_user_returned, VObj new_user_returned), tt,
     [(User.register_check_sql, [VStr "new"]);
      (User.register_insert_sql,
       [VStr "new"; VStr "$2b$12$hash"; VStr "first"; VStr "last";
        VStr "test@test.com"; VBool false]);
      (User.authenticate_sql, [VStr "new"])]).
Proof.
  exact (register_then_authenticate unit new_user_world 12 new_user_fields
           tt tt tt tt tt tt "$2b$12$hash" new_user_returned new_user_selected
           eq_refl eq_refl eq_refl eq_refl eq_refl eq_refl eq_refl).
Defined.
